(** * SafeDesk AI: the violation detection and enforcement pipeline

    A shallow embedding of [safedesk_final.py]: the per-frame streak and
    cooldown logic of [SafeDeskApp.update_frame], the evidence and database
    writes of [SafeDeskApp.save_violation], and the start/stop transitions
    of [SafeDeskApp.start_monitoring] and [SafeDeskApp.stop_monitoring].

    Conventions of the model.
    - [time.time()] is a float number of seconds; the model reads the clock
      as an exact integer ([Z]) in one fixed unit, so that
      [now - last_alert_time >= alert_cooldown_seconds] is an exact
      comparison.
    - What the host decides (camera frames, detector output, clock
      readings, whether a file or database write goes through) is an
      explicit input of the function that consumes it.
    - Each method is modelled as it runs on its own thread of control;
      interleavings of the capture thread with the Tk main loop are not
      part of the model.
    - Widgets are modelled only as far as the pipeline writes to them: the
      status label, the message boxes and the log box. *)

From Stdlib Require Import ZArith Lia Bool.
From stdpp Require Import base strings pretty list gmap.

Local Open Scope Z_scope.

(** ** Data model *)

(** An image as handed around by OpenCV: the model only copies and stores
    it. *)
Definition Frame := list Z.

(** One detection box of a YOLO result; [box_cls] is [int(box.cls[0])]. *)
Record Box := mkBox { box_cls : Z }.

(** One element of [results]; [boxes] is [r.boxes], which may be [None]. *)
Record Result := mkResult { boxes : option (list Box) }.

(** The loaded detector, [self.model]. *)
Inductive Model := YOLO (weights : string).

(** [cv2.VideoCapture]: the model keeps whether the device opened. *)
Record Capture := mkCapture { isOpened : bool }.

(** The fields of [SafeDeskApp] the pipeline reads and writes, with the
    names [__init__] gives them. *)
Record App := mkApp {
  monitoring : bool;
  model : option Model;
  model_loading : bool;
  cap : option Capture;
  alert_cooldown_seconds : Z;
  required_streak : Z;
  detect_streak : Z;
  action_mode : string;
  last_alert_time : Z
}.

(** The values assigned in [__init__] (lines 68-77). *)
Definition init_app : App :=
  {| monitoring := false; model := None; model_loading := false;
     cap := None; alert_cooldown_seconds := 10; required_streak := 3;
     detect_streak := 0; action_mode := "Log Only"; last_alert_time := 0 |}.

Definition set_monitoring (b : bool) (a : App) : App :=
  {| monitoring := b; model := model a; model_loading := model_loading a;
     cap := cap a; alert_cooldown_seconds := alert_cooldown_seconds a;
     required_streak := required_streak a; detect_streak := detect_streak a;
     action_mode := action_mode a; last_alert_time := last_alert_time a |}.

Definition set_cap (c : option Capture) (a : App) : App :=
  {| monitoring := monitoring a; model := model a;
     model_loading := model_loading a;
     cap := c; alert_cooldown_seconds := alert_cooldown_seconds a;
     required_streak := required_streak a; detect_streak := detect_streak a;
     action_mode := action_mode a; last_alert_time := last_alert_time a |}.

Definition set_detect_streak (n : Z) (a : App) : App :=
  {| monitoring := monitoring a; model := model a;
     model_loading := model_loading a;
     cap := cap a; alert_cooldown_seconds := alert_cooldown_seconds a;
     required_streak := required_streak a; detect_streak := n;
     action_mode := action_mode a; last_alert_time := last_alert_time a |}.

Definition set_last_alert_time (t : Z) (a : App) : App :=
  {| monitoring := monitoring a; model := model a;
     model_loading := model_loading a;
     cap := cap a; alert_cooldown_seconds := alert_cooldown_seconds a;
     required_streak := required_streak a; detect_streak := detect_streak a;
     action_mode := action_mode a; last_alert_time := t |}.

(** [set_action_mode] (line 234). *)
Definition set_action_mode (value : string) (a : App) : App :=
  {| monitoring := monitoring a; model := model a;
     model_loading := model_loading a;
     cap := cap a; alert_cooldown_seconds := alert_cooldown_seconds a;
     required_streak := required_streak a; detect_streak := detect_streak a;
     action_mode := value; last_alert_time := last_alert_time a |}.

(** *** The violations table *)

(** A row of [violations(id, timestamp, employee_name, object_detected,
    image_path)]. *)
Record Row := mkRow {
  row_id : Z;
  row_timestamp : string;
  employee_name : string;
  object_detected : string;
  image_path : string
}.

(** The table and the counter SQLite keeps for an AUTOINCREMENT key
    ([sqlite_sequence]): the largest id ever handed out, which survives
    [DELETE FROM violations]. *)
Record Table := mkTable { rows : list Row; seq : Z }.

(** The shared connection [conn]: what is committed to [compliance_logs.db]
    and, while a transaction is open, the table as that transaction sees
    it. *)
Record Conn := mkConn { committed : Table; txn : option Table }.

(** What a statement run on the connection reads. *)
Definition view (c : Conn) : Table := default (committed c) (txn c).

(** *** Callbacks, host effects and the whole system *)

(** The callbacks the code hands to [self.after(0, ...)]. *)
Inductive Callback :=
| CbSaveViolation (f : Frame)
| CbRefreshLogs
| CbShowWarning.

(** The message boxes of the pipeline. *)
Inductive Msg :=
| MsgPleaseWait       (* showinfo "Please Wait": model still loading *)
| MsgModelFailed      (* showerror "Error": model failed to load *)
| MsgCameraError.     (* showerror "Camera Error" *)

(** The texts written to [status_text]. *)
Inductive Status := MonitoringLive | SystemReady | SystemOffline.

(** What the pipeline does to its host, in the order it does it. *)
Inductive Effect :=
| ShowMsg (m : Msg)
| SetStatus (st : Status)
| StartThread                 (* threading.Thread(target=self.update_frame) *)
| Release (c : Capture)       (* self.cap.release() *)
| LockWorkStation
| Print.                      (* print(f"Frame error: {e}") *)

(** A line of the log box: timestamp, employee and object. *)
Definition LogLine := (string * string * string)%type.

Record Sys := mkSys {
  app : App;
  files : gmap string Frame;     (* the files that exist, by path *)
  db : Conn;
  after_queue : list Callback;   (* registered with self.after, oldest first *)
  host : list Effect;            (* oldest first *)
  log_box : list LogLine
}.

Definition with_app (g : App -> App) (s : Sys) : Sys :=
  {| app := g (app s); files := files s; db := db s;
     after_queue := after_queue s; host := host s; log_box := log_box s |}.

Definition with_files (g : gmap string Frame -> gmap string Frame)
    (s : Sys) : Sys :=
  {| app := app s; files := g (files s); db := db s;
     after_queue := after_queue s; host := host s; log_box := log_box s |}.

Definition with_db (g : Conn -> Conn) (s : Sys) : Sys :=
  {| app := app s; files := files s; db := g (db s);
     after_queue := after_queue s; host := host s; log_box := log_box s |}.

(** [self.after(0, cb)]. *)
Definition after (cb : Callback) (s : Sys) : Sys :=
  {| app := app s; files := files s; db := db s;
     after_queue := after_queue s ++ [cb]; host := host s;
     log_box := log_box s |}.

Definition emit (e : Effect) (s : Sys) : Sys :=
  {| app := app s; files := files s; db := db s;
     after_queue := after_queue s; host := host s ++ [e];
     log_box := log_box s |}.

Definition set_log_box (l : list LogLine) (s : Sys) : Sys :=
  {| app := app s; files := files s; db := db s;
     after_queue := after_queue s; host := host s; log_box := l |}.

(** ** The capture loop: [update_frame] *)

(** What one pass of the loop body meets. [clock] is the value
    [time.time()] has in that pass.  [Failure] is an exception raised
    before line 273 ([cap.read] or the detector); [Unscheduled] is a
    captured frame in a pass where line 282 ([frame.copy()] or
    [self.after]) raises if it is reached. *)
Inductive Reading :=
| NoFrame                                   (* [ret] is false *)
| Failure                                   (* raised in lines 256-262 *)
| Captured (frame : Frame) (results : list Result) (clock : Z)
| Unscheduled (frame : Frame) (results : list Result) (clock : Z).

(** Lines 263-271: is there a box of class 67 (mobile phone)? *)
Definition has_phone (r : Result) : bool :=
  match boxes r with
  | Some bs => existsb (fun b => box_cls b =? 67) bs
  | None => false
  end.

Definition phone_detected (results : list Result) : bool :=
  existsb has_phone results.

(** Lines 273-276. *)
Definition streak_after (hit : bool) (a : App) : Z :=
  if hit then detect_streak a + 1 else 0.

(** Line 278: [self.detect_streak >= self.required_streak]. *)
Definition streak_reached (a : App) : bool :=
  required_streak a <=? detect_streak a.

(** Line 280: [now - self.last_alert_time >= self.alert_cooldown_seconds]. *)
Definition cooldown_over (now : Z) (a : App) : bool :=
  alert_cooldown_seconds a <=? now - last_alert_time a.

(** Lines 280-283, entered when the streak is reached: the boolean tells
    whether the branch that schedules [save_violation] was taken. *)
Definition cooldown_gate (now : Z) (frame : Frame) (s : Sys) : bool * Sys :=
  if cooldown_over now (app s) then
    (true,
     with_app (set_detect_streak 0)
       (after (CbSaveViolation frame)
          (with_app (set_last_alert_time now) s)))
  else (false, s).

(** Lines 273-283 for a frame on which the detector found ([hit]) or did
    not find a phone. *)
Definition gates (hit : bool) (now : Z) (frame : Frame) (s : Sys) : Sys :=
  let s1 := with_app (set_detect_streak (streak_after hit (app s))) s in
  if streak_reached (app s1) then snd (cooldown_gate now frame s1) else s1.

(** Lines 273-282 in a pass where line 282 raises: when the streak is
    reached and the cooldown is over, line 281 has set [last_alert_time]
    by then; nothing is scheduled, the counter is not reset, and the
    [except] branch prints. *)
Definition gates_unscheduled (hit : bool) (now : Z) (s : Sys) : Sys :=
  let s1 := with_app (set_detect_streak (streak_after hit (app s))) s in
  if streak_reached (app s1) then
    if cooldown_over now (app s1)
    then emit Print (with_app (set_last_alert_time now) s1)
    else s1
  else s1.

(** The body of the [while] loop (lines 255-288). *)
Definition frame_iteration (rd : Reading) (s : Sys) : Sys :=
  match rd with
  | NoFrame => s
  | Failure => emit Print s
  | Captured frame results clock =>
      if negb (monitoring (app s)) then s
      else gates (phone_detected results) clock frame s
  | Unscheduled frame results clock =>
      if negb (monitoring (app s)) then s
      else gates_unscheduled (phone_detected results) clock s
  end.

(** [update_frame] over the readings the loop meets: the loop leaves as
    soon as [self.monitoring] is false. *)
Fixpoint update_frame (rds : list Reading) (s : Sys) : Sys :=
  match rds with
  | [] => s
  | rd :: rest =>
      if monitoring (app s) then update_frame rest (frame_iteration rd s)
      else s
  end.

(** ** Starting and stopping *)

(** [start_monitoring] (lines 208-232). [camera_opens] is what
    [self.cap.isOpened()] answers for the capture the call creates; the
    [cap.set] calls only tune that capture. *)
Definition start_monitoring (camera_opens : bool) (s : Sys) : Sys :=
  match model (app s) with
  | None =>
      if model_loading (app s) then emit (ShowMsg MsgPleaseWait) s
      else emit (ShowMsg MsgModelFailed) s
  | Some _ =>
      if negb (monitoring (app s)) then
        let s1 := with_app (set_monitoring true) s in
        let s2 := with_app (set_detect_streak 0) s1 in
        let c := mkCapture camera_opens in
        let s3 := with_app (set_cap (Some c)) s2 in
        if isOpened c then emit StartThread (emit (SetStatus MonitoringLive) s3)
        else with_app (set_monitoring false) (emit (ShowMsg MsgCameraError) s3)
      else s
  end.

(** [stop_monitoring] (lines 241-251). *)
Definition stop_monitoring (s : Sys) : Sys :=
  let s1 := with_app (set_monitoring false) s in
  let s2 := with_app (set_detect_streak 0) s1 in
  let s3 := match cap (app s2) with
            | Some c => with_app (set_cap None) (emit (Release c) s2)
            | None => s2
            end in
  match model (app s3) with
  | Some _ => emit (SetStatus SystemReady) s3
  | None => emit (SetStatus SystemOffline) s3
  end.

(** ** The violations store *)

(** The largest id in the table, 0 when it is empty. *)
Definition max_rowid (rs : list Row) : Z :=
  foldr (fun r m => Z.max (row_id r) m) 0 rs.

(** The id an AUTOINCREMENT insert hands out: one more than the largest
    id the table holds or ever held. *)
Definition next_rowid (t : Table) : Z :=
  Z.max (max_rowid (rows t)) (seq t) + 1.

(** [INSERT INTO violations (timestamp, employee_name, object_detected,
    image_path) VALUES (?, ?, ?, ?)]. *)
Definition new_row (t : Table) (ts emp obj img : string) : Row :=
  mkRow (next_rowid t) ts emp obj img.

Definition insert_row (ts emp obj img : string) (t : Table) : Table :=
  {| rows := rows t ++ [new_row t ts emp obj img]; seq := next_rowid t |}.

(** [DELETE FROM violations]. *)
Definition delete_all (t : Table) : Table := {| rows := []; seq := seq t |}.

(** [ORDER BY id DESC]. *)
Fixpoint insert_desc (r : Row) (l : list Row) : list Row :=
  match l with
  | [] => [r]
  | x :: l' =>
      if row_id x <=? row_id r then r :: l else x :: insert_desc r l'
  end.

Definition order_by_id_desc (l : list Row) : list Row :=
  foldr insert_desc [] l.

(** [SELECT timestamp, employee_name, object_detected FROM violations
    ORDER BY id DESC LIMIT 10]. *)
Definition log_line (r : Row) : LogLine :=
  (row_timestamp r, employee_name r, object_detected r).

Definition recent_violations (c : Conn) : list LogLine :=
  log_line <$> take 10 (order_by_id_desc (rows (view c))).

(** [refresh_logs] (lines 314-323): the box is emptied, then filled from
    the query; when the query raises, the bare [except] leaves it empty. *)
Definition refresh_logs (query_ok : bool) (s : Sys) : Sys :=
  if query_ok then set_log_box (recent_violations (db s)) s
  else set_log_box [] s.

(** ** Actions that may raise *)

Inductive Exn := Cv2Error | Sqlite3Error | HostError.

Inductive Outcome (A : Type) :=
| Returned (a : A)
| Raised (e : Exn).
Arguments Returned {A} a.
Arguments Raised {A} e.

(** A piece of code running on the system: it returns or raises, and
    leaves the system in a new state either way. *)
Definition Act (A : Type) : Type := Sys -> Outcome A * Sys.

Definition act_ret {A} (a : A) : Act A := fun s => (Returned a, s).

Definition act_bind {A B} (m : Act A) (k : A -> Act B) : Act B :=
  fun s =>
    match m s with
    | (Returned a, s1) => k a s1
    | (Raised e, s1) => (Raised e, s1)
    end.

Definition raise {A} (e : Exn) : Act A := fun s => (Raised e, s).

Definition gets {A} (f : Sys -> A) : Act A := fun s => (Returned (f s), s).

Definition modify (g : Sys -> Sys) : Act unit := fun s => (Returned tt, g s).

Declare Scope act_scope.
Delimit Scope act_scope with act.
Notation "x <~ c ; k" := (act_bind c (fun x => k))
  (at level 200, c at level 100, k at level 200, right associativity,
   only parsing) : act_scope.
Notation "c ;;; k" := (act_bind c (fun _ => k))
  (at level 200, k at level 200, right associativity, only parsing)
  : act_scope.

(** *** What [save_violation] finds in its host *)

Record DateTime := mkDateTime {
  year : Z; month : Z; day : Z; hour : Z; minute : Z; second : Z
}.

(** How [cv2.imwrite] ends: the file is written, nothing is written (the
    call answers false), or the call raises. *)
Inductive WriteOutcome := Written | NotWritten | WriteRaises.

Record SaveEnv := mkSaveEnv {
  env_now : DateTime;              (* datetime.now() *)
  env_login : option string;       (* os.getlogin(), None when it raises *)
  env_imwrite : WriteOutcome;
  env_insert_ok : bool;            (* cursor.execute goes through *)
  env_commit_ok : bool;            (* conn.commit goes through *)
  env_lock_ok : bool               (* LockWorkStation can be called *)
}.

(** [cv2.imwrite(img_name, frame)]. *)
Definition cv2_imwrite (w : WriteOutcome) (img_name : string)
    (frame : Frame) : Act unit :=
  match w with
  | Written => modify (with_files (fun fs => <[img_name := frame]> fs))
  | NotWritten => act_ret tt
  | WriteRaises => raise Cv2Error
  end.

(** [os.path.exists(img_name)]. *)
Definition os_path_exists (img_name : string) : Act bool :=
  gets (fun s => bool_decide (is_Some (files s !! img_name))).

(** [cursor.execute('INSERT ...', (...))]. *)
Definition cursor_execute_insert (ok : bool) (ts emp obj img : string)
    : Act unit :=
  if ok then
    modify (with_db (fun c =>
      mkConn (committed c) (Some (insert_row ts emp obj img (view c)))))
  else raise Sqlite3Error.

(** [conn.commit()]. *)
Definition conn_commit (ok : bool) : Act unit :=
  if ok then modify (with_db (fun c => mkConn (view c) None))
  else raise Sqlite3Error.

(** [ctypes.windll.user32.LockWorkStation()]. *)
Definition lock_workstation (ok : bool) : Act unit :=
  if ok then modify (emit LockWorkStation) else raise HostError.

(** Lines 309-312: the enforcement action for the current mode. *)
Definition dispatch (env : SaveEnv) : Act unit :=
  (mode <~ gets (fun s => action_mode (app s));
   if String.eqb mode "Warn" then modify (after CbShowWarning)
   else if String.eqb mode "Lock" then lock_workstation (env_lock_ok env)
   else act_ret tt)%act.

(** Lines 303-307: insert, commit and ask for a refresh of the log box. *)
Definition persist (env : SaveEnv) (ts emp obj img : string) : Act unit :=
  (cursor_execute_insert (env_insert_ok env) ts emp obj img ;;;
   conn_commit (env_commit_ok env) ;;;
   modify (after CbRefreshLogs))%act.

Section Host.

(** Library and module-level values the method uses. *)
Variable strftime : string -> DateTime -> string.
Variable os_path_join : string -> string -> string.
Variable ALERTS_DIR : string.

Definition timestamp_str (now : DateTime) : string :=
  strftime "%Y-%m-%d %H:%M:%S" now.

Definition img_name (now : DateTime) : string :=
  os_path_join ALERTS_DIR
    ("violation_" +:+ strftime "%Y%m%d_%H%M%S" now +:+ ".jpg").

Definition employee_id (env : SaveEnv) : string :=
  default "Unknown" (env_login env).

(** [save_violation] (lines 290-312). *)
Definition save_violation (env : SaveEnv) (frame : Frame) : Act unit :=
  (let now := env_now env in
   cv2_imwrite (env_imwrite env) (img_name now) frame ;;;
   found <~ os_path_exists (img_name now);
   if (found : bool) then
     persist env (timestamp_str now) (employee_id env) "Mobile Phone"
       (img_name now) ;;;
     dispatch env
   else act_ret tt)%act.

End Host.

(** ** Vocabulary of the statements *)

(** The Debounce Gate of the specification, read off lines 273-278: the
    call fires when the updated counter reaches [required_streak]. *)
Definition observe (hit : bool) (a : App) : bool :=
  streak_reached (set_detect_streak (streak_after hit a) a).

(** The detection flags of the frames the loop got to look at, oldest
    first. *)
Definition hits (rds : list Reading) : list bool :=
  omap (fun rd => match rd with
                  | Captured _ results _ | Unscheduled _ results _ =>
                      Some (phone_detected results)
                  | _ => None
                  end) rds.

(** The [n] most recent entries of a history exist and are all true. *)
Definition recent_all_true (n : nat) (hs : list bool) : bool :=
  bool_decide (take n (reverse hs) = replicate n true).

(** Every clock reading of the passes is less than [bound]. *)
Definition clocks_below (bound : Z) (rds : list Reading) : Prop :=
  Forall (fun rd => match rd with
                    | Captured _ _ c | Unscheduled _ _ c => c < bound
                    | _ => True
                    end) rds.

(** Does the pass [rd] from [s] go through line 281: the frame is
    handled, the streak is reached and the cooldown is over? *)
Definition admits (rd : Reading) (s : Sys) : bool :=
  match rd with
  | Captured _ results c | Unscheduled _ results c =>
      monitoring (app s) && observe (phone_detected results) (app s)
      && cooldown_over c (app s)
  | _ => false
  end.

(** No pass of the run [rds] from [s] goes through line 281. *)
Fixpoint no_admission (rds : list Reading) (s : Sys) : bool :=
  match rds with
  | [] => true
  | rd :: rest =>
      negb (admits rd s) && no_admission rest (frame_iteration rd s)
  end.

(** A state of a running pipeline with the settings of [__init__]: the
    model is loaded, the camera is open, the counter is 0 and the last
    alert is [last]. *)
Definition running_app (last : Z) : App :=
  {| monitoring := true; model := Some (YOLO "yolov8n.pt");
     model_loading := false; cap := Some (mkCapture true);
     alert_cooldown_seconds := 10; required_streak := 3;
     detect_streak := 0; action_mode := "Log Only";
     last_alert_time := last |}.

Definition empty_conn : Conn := mkConn (mkTable [] 0) None.

Definition sys_of (a : App) : Sys :=
  {| app := a; files := ∅; db := empty_conn; after_queue := [];
     host := []; log_box := [] |}.

(** A frame with one box of class 67, and a frame without boxes. *)
Definition phone_frame (clock : Z) : Reading :=
  Captured [] [mkResult (Some [mkBox 67])] clock.

Definition empty_frame (clock : Z) : Reading :=
  Captured [] [mkResult None] clock.

(** *** The Cooldown Gate as specified *)

(** The value [last_alert_time] has before any alert: [__init__] stores
    0.0 for "never", and line 280 subtracts it like any other time. *)
Definition never : Z := last_alert_time init_app.

(** *** The Debounce Gate as specified *)

(** The two halves of the specification's reading of the gate, for the
    pass on [Captured f r c] that follows the passes [rds] from [s]. *)
Definition fires_iff_recent (s : Sys) (rds : list Reading)
    (f : Frame) (r : list Result) (c : Z) : Prop :=
  observe (phone_detected r) (app (update_frame rds s)) = true <->
  recent_all_true (Z.to_nat (required_streak (app s)))
    (hits (rds ++ [Captured f r c])) = true.

Definition fire_resets (s : Sys) (rds : list Reading)
    (f : Frame) (r : list Result) (c : Z) : Prop :=
  observe (phone_detected r) (app (update_frame rds s)) = true ->
  detect_streak (app (update_frame (rds ++ [Captured f r c]) s)) = 0.

(** *** Starting and stopping *)

(** The messages that tell the operator the detector is not ready. *)
Definition detector_not_ready (m : Msg) : bool :=
  match m with
  | MsgPleaseWait | MsgModelFailed => true
  | MsgCameraError => false
  end.

(** The number of capture loops started so far. *)
Definition is_start (e : Effect) : bool :=
  match e with StartThread => true | _ => false end.

Definition loops_started (s : Sys) : nat :=
  length (List.filter is_start (host s)).

(** A start after which the pipeline state is back at the values of
    [__init__]. *)
Definition start_resets_state (camera_opens : bool) (s : Sys) : Prop :=
  monitoring (app s) = false ->
  monitoring (app (start_monitoring camera_opens s)) = true ->
  detect_streak (app (start_monitoring camera_opens s)) =
    detect_streak init_app /\
  last_alert_time (app (start_monitoring camera_opens s)) =
    last_alert_time init_app.

(** A stopped pipeline whose model is loaded and whose last alert was at
    [last]. *)
Definition stopped_app (last : Z) : App :=
  set_cap None (set_monitoring false (running_app last)).

(** *** Concrete hosts *)

(** A host for the concrete runs: the two formats [save_violation] asks
    of [strftime], a join with a slash, and the [Alerts] directory. *)
Definition two_digits (n : Z) : string :=
  (if n <? 10 then "0" else "") +:+ pretty n.

Definition sample_strftime (fmt : string) (d : DateTime) : string :=
  if String.eqb fmt "%Y%m%d_%H%M%S" then
    pretty (year d) +:+ two_digits (month d) +:+ two_digits (day d) +:+ "_"
    +:+ two_digits (hour d) +:+ two_digits (minute d)
    +:+ two_digits (second d)
  else
    pretty (year d) +:+ "-" +:+ two_digits (month d) +:+ "-"
    +:+ two_digits (day d) +:+ " " +:+ two_digits (hour d) +:+ ":"
    +:+ two_digits (minute d) +:+ ":" +:+ two_digits (second d).

Definition sample_join (dir name : string) : string := dir +:+ "/" +:+ name.

Definition sample_now : DateTime := mkDateTime 2024 3 9 14 5 30.

(** Hosts in which the image cannot be written, everything goes through,
    and the workstation cannot be locked. *)
Definition env_no_image : SaveEnv :=
  mkSaveEnv sample_now (Some "alice") NotWritten true true true.

Definition env_all_fine : SaveEnv :=
  mkSaveEnv sample_now (Some "alice") Written true true true.

Definition env_no_lock : SaveEnv :=
  mkSaveEnv sample_now None Written true true false.

Definition sample_save : SaveEnv -> Frame -> Act unit :=
  save_violation sample_strftime sample_join "Alerts".

Definition sample_path : string :=
  img_name sample_strftime sample_join "Alerts" sample_now.

(** Unfolds the primitive actions. *)
Ltac run_act :=
  unfold act_bind, act_ret, raise, gets, modify, cv2_imwrite, os_path_exists,
    cursor_execute_insert, conn_commit, lock_workstation in *; cbn in *.

(** ** The rest of the application *)

(** *** The detector scan, loop by loop *)

(** Lines 267-270: the inner [for] over the boxes of one result, with its
    [break]; the argument is [phone_detected] as the loop finds it. *)
Fixpoint scan_boxes (bs : list Box) (phone_detected : bool) : bool :=
  match bs with
  | [] => phone_detected
  | box :: rest =>
      if box_cls box =? 67 then true else scan_boxes rest phone_detected
  end.

(** Lines 265-271: the outer [for] over [results], left at the first
    result that set the flag. *)
Fixpoint scan_results (results : list Result) (phone_detected : bool)
    : bool :=
  match results with
  | [] => phone_detected
  | r :: rest =>
      let flag := match boxes r with
                  | Some bs => scan_boxes bs phone_detected
                  | None => phone_detected
                  end in
      if flag then flag else scan_results rest flag
  end.

(** Every clock reading of the passes lies in [[lo, hi)]. *)
Definition clocks_within (lo hi : Z) (rds : list Reading) : Prop :=
  Forall (fun rd => match rd with
                    | Captured _ _ c | Unscheduled _ _ c => lo <= c < hi
                    | _ => True
                    end) rds.

(** The frames the loop got to look at. *)
Definition frames_of (rds : list Reading) : list Frame :=
  omap (fun rd => match rd with
                  | Captured f _ _ | Unscheduled f _ _ => Some f
                  | _ => None
                  end) rds.

(** *** The store over time *)

(** The ids of a table grow along its rows and none is above the
    counter: what SQLite keeps for an AUTOINCREMENT key. *)
Fixpoint ascending_below (bound : Z) (rs : list Row) : Prop :=
  match rs with
  | [] => True
  | r :: rest =>
      row_id r <= bound /\
      Forall (fun x => row_id r < row_id x) rest /\
      ascending_below bound rest
  end.

Definition table_ok (t : Table) : Prop := ascending_below (seq t) (rows t).

(** The table [CREATE TABLE IF NOT EXISTS] makes (lines 46-48). *)
Definition fresh_table : Table := mkTable [] 0.

(** What is done to the table over time: an insert with its four values,
    or the [DELETE] of [clear_all_violations]. *)
Inductive TableOp :=
| OpInsert (ts emp obj img : string)
| OpDeleteAll.

Definition apply_op (t : Table) (op : TableOp) : Table :=
  match op with
  | OpInsert ts emp obj img => insert_row ts emp obj img t
  | OpDeleteAll => delete_all t
  end.

Definition apply_ops (ops : list TableOp) (t : Table) : Table :=
  foldl apply_op t ops.

(** [cursor.execute("DELETE FROM violations")]. *)
Definition cursor_execute_delete (ok : bool) : Act unit :=
  if ok then
    modify (with_db (fun c => mkConn (committed c) (Some (delete_all (view c)))))
  else raise Sqlite3Error.

(** [clear_all_violations] (lines 523-528) up to its closing message box:
    [confirmed] is the answer to [askyesno]; the boolean returned tells
    whether "DATABASE CLEARED" is shown. *)
Definition clear_all_violations (confirmed delete_ok commit_ok query_ok : bool)
    : Act bool :=
  if confirmed then
    (cursor_execute_delete delete_ok ;;;
     conn_commit commit_ok ;;;
     modify (refresh_logs query_ok) ;;;
     act_ret true)%act
  else act_ret false.

(** *** The manager dashboard *)

(** Python's [sub in s] on strings. *)
Definition contains (sub s : string) : bool :=
  match String.index 0 sub s with
  | Some _ => true
  | None => false
  end.

(** A line of the dashboard table (lines 408-441). *)
Record DashRow := mkDashRow {
  shown_timestamp : string;
  shown_employee : string;
  shown_device : string;
  photo_path : string;
  photo_saved : bool            (* "Photo Saved" or "Missing" *)
}.

(** [os.path.exists] on the files of the model. *)
Definition file_exists (fs : gmap string Frame) (p : string) : bool :=
  bool_decide (is_Some (fs !! p)).

(** The body of the loop over the rows (lines 409-422); [login] is
    [os.getlogin()], [None] when it raises. *)
Definition dashboard_row (login : option string) (fs : gmap string Frame)
    (row : Row) : DashRow :=
  let timestamp := row_timestamp row in
  let emp_name := employee_name row in
  let device := object_detected row in
  let img_path := image_path row in
  if negb (String.eqb device "") &&
     (contains "C:\" device || contains "violation_" device)
  then
    mkDashRow timestamp (default "User" login) emp_name device
      (file_exists fs device)
  else
    mkDashRow timestamp emp_name device img_path (file_exists fs img_path).

(** [SELECT COUNT( * ) FROM violations] (line 383). *)
Definition total_violations (c : Conn) : nat := length (rows (view c)).

(** [SELECT * FROM violations ORDER BY id DESC LIMIT 50], row by row
    (lines 405-422). *)
Definition dashboard_table (login : option string) (s : Sys) : list DashRow :=
  dashboard_row login (files s)
    <$> take 50 (order_by_id_desc (rows (view (db s)))).

(** *** The desk: windows, model loading and the main loop *)

Definition set_model (m : option Model) (a : App) : App :=
  {| monitoring := monitoring a; model := m;
     model_loading := model_loading a;
     cap := cap a; alert_cooldown_seconds := alert_cooldown_seconds a;
     required_streak := required_streak a; detect_streak := detect_streak a;
     action_mode := action_mode a; last_alert_time := last_alert_time a |}.

Definition set_model_loading (b : bool) (a : App) : App :=
  {| monitoring := monitoring a; model := model a; model_loading := b;
     cap := cap a; alert_cooldown_seconds := alert_cooldown_seconds a;
     required_streak := required_streak a; detect_streak := detect_streak a;
     action_mode := action_mode a; last_alert_time := last_alert_time a |}.

(** Toplevel windows, told apart by a number. *)
Definition Window := nat.

(** The callbacks the loader thread hands to [self.after(0, ...)]:
    [self._model_loaded_callback] (line 106) and the lambda of line 109,
    [lambda: self._model_load_failed(str(e))]. *)
Inductive LoaderCallback :=
| CbModelLoaded
| CbModelLoadFailed.

(** What the code outside the pipeline shows and starts. *)
Inductive DeskEffect :=
| StatusLoading            (* status "Loading AI Model..." *)
| StatusLoadFailed         (* status "Model Load Failed" *)
| StartLoader              (* Thread(target=self._load_model_thread) *)
| ShowLoadError            (* showerror "Failed to load AI model" *)
| ShowViolationWarning     (* showwarning "VIOLATION" *)
| ShowPhotoNotFound        (* showerror "Photo file not found!" *)
| Lift (w : Window)        (* lift() and focus_force() *)
| CloseConn                (* conn.close() *)
| DestroyRoot.             (* self.destroy() *)

(** What raises outside the pipeline. *)
Inductive DeskExn := KeyError | RuntimeError | NameError.

Record Desk := mkDesk {
  sys : Sys;
  open_photo_windows : gmap string Window;   (* self.open_photo_windows *)
  live : gset Window;                        (* toplevels not destroyed *)
  next_window : Window;                      (* the next toplevel made *)
  loader_queue : list LoaderCallback;        (* oldest first *)
  shown : list DeskEffect                    (* oldest first *)
}.

(** The desk [__init__] leaves. *)
Definition init_desk : Desk :=
  {| sys := sys_of init_app; open_photo_windows := ∅; live := ∅;
     next_window := 0%nat; loader_queue := []; shown := [] |}.

Definition with_sys (g : Sys -> Sys) (d : Desk) : Desk :=
  {| sys := g (sys d); open_photo_windows := open_photo_windows d;
     live := live d; next_window := next_window d;
     loader_queue := loader_queue d; shown := shown d |}.

Definition show (e : DeskEffect) (d : Desk) : Desk :=
  {| sys := sys d; open_photo_windows := open_photo_windows d;
     live := live d; next_window := next_window d;
     loader_queue := loader_queue d; shown := shown d ++ [e] |}.

Definition loader_after (cb : LoaderCallback) (d : Desk) : Desk :=
  {| sys := sys d; open_photo_windows := open_photo_windows d;
     live := live d; next_window := next_window d;
     loader_queue := loader_queue d ++ [cb]; shown := shown d |}.

Definition with_windows (g : gmap string Window -> gmap string Window)
    (d : Desk) : Desk :=
  {| sys := sys d; open_photo_windows := g (open_photo_windows d);
     live := live d; next_window := next_window d;
     loader_queue := loader_queue d; shown := shown d |}.

(** [ctk.CTkToplevel(self)]: a window no one has seen before. *)
Definition new_toplevel (d : Desk) : Desk :=
  {| sys := sys d; open_photo_windows := open_photo_windows d;
     live := {[next_window d]} ∪ live d; next_window := S (next_window d);
     loader_queue := loader_queue d; shown := shown d |}.

(** [w.destroy()]. *)
Definition destroy (w : Window) (d : Desk) : Desk :=
  {| sys := sys d; open_photo_windows := open_photo_windows d;
     live := live d ∖ {[w]}; next_window := next_window d;
     loader_queue := loader_queue d; shown := shown d |}.

(** [load_model_background] (lines 92-97). *)
Definition load_model_background (d : Desk) : Desk :=
  if negb (model_loading (app (sys d))) &&
     bool_decide (model (app (sys d)) = None)
  then
    show StartLoader
      (show StatusLoading
         (with_sys (with_app (set_model_loading true)) d))
  else d.

(** [_load_model_thread] (lines 99-109): [loaded] is what [YOLO(MODEL_PATH)]
    returns, [None] when it raises. *)
Definition _load_model_thread (loaded : option Model) (d : Desk) : Desk :=
  match loaded with
  | Some m =>
      loader_after CbModelLoaded (with_sys (with_app (set_model (Some m))) d)
  | None => loader_after CbModelLoadFailed d
  end.

(** [_model_loaded_callback] (lines 111-114). *)
Definition _model_loaded_callback (d : Desk) : Desk :=
  with_sys (emit (SetStatus SystemReady))
    (with_sys (with_app (set_model_loading false)) d).

(** [_model_load_failed] (lines 116-120), as it would run if called. *)
Definition _model_load_failed (d : Desk) : Desk :=
  show ShowLoadError
    (show StatusLoadFailed
       (with_sys (with_app (set_model_loading false)) d)).

(** What the main loop does with a callback of the loader.  The lambda
    of line 109 runs after the [except] block has ended, and Python
    unbinds [e] at the end of that block: evaluating [str(e)] raises
    [NameError] before [_model_load_failed] is called. *)
Definition run_loader_callback (cb : LoaderCallback) (d : Desk)
    : option DeskExn * Desk :=
  match cb with
  | CbModelLoaded => (None, _model_loaded_callback d)
  | CbModelLoadFailed => (Some NameError, d)
  end.

(** One whole load: the request, the thread, and the oldest callback of
    the loader run by the main loop, which reports an exception of the
    callback and goes on. *)
Definition load_model (loaded : option Model) (d : Desk) : Desk :=
  let d1 := _load_model_thread loaded (load_model_background d) in
  match loader_queue d1 with
  | cb :: rest =>
      snd (run_loader_callback cb
             {| sys := sys d1; open_photo_windows := open_photo_windows d1;
                live := live d1; next_window := next_window d1;
                loader_queue := rest; shown := shown d1 |})
  | [] => d1
  end.

(** [get_model] (lines 122-128). *)
Definition get_model (d : Desk) : (DeskExn + Model) * Desk :=
  match model (app (sys d)) with
  | None =>
      if negb (model_loading (app (sys d)))
      then (inl RuntimeError, load_model_background d)
      else (inl RuntimeError, d)
  | Some m => (inr m, d)
  end.

(** [open_violation_photo] (lines 454-494): [image_loads] tells whether
    [PILImage.open] and the widgets after it go through. *)
Definition open_violation_photo (image_loads : bool) (img_path : string)
    (d : Desk) : Desk :=
  if String.eqb img_path "" || negb (file_exists (files (sys d)) img_path)
  then show ShowPhotoNotFound d
  else
    match open_photo_windows d !! img_path with
    | Some w => show (Lift w) d
    | None =>
        let photo_win := next_window d in
        let d1 := with_windows (fun m => <[img_path := photo_win]> m)
                    (new_toplevel d) in
        if image_loads then d1
        else
          if bool_decide (is_Some (open_photo_windows d1 !! img_path))
          then with_windows (fun m => delete img_path m) d1
          else d1
    end.

(** [on_window_close] (lines 474-476), the closure made for [img_path]
    and [photo_win]. *)
Definition on_window_close (img_path : string) (photo_win : Window)
    (d : Desk) : option DeskExn * Desk :=
  match open_photo_windows d !! img_path with
  | Some _ =>
      (None, destroy photo_win (with_windows (fun m => delete img_path m) d))
  | None => (Some KeyError, d)
  end.

(** [exit_app] (lines 572-579); closing the connection drops a
    transaction that was left open. *)
Definition exit_app (d : Desk) : Desk :=
  let d1 := map_fold (fun _ w acc => destroy w acc) d (open_photo_windows d) in
  let d2 := with_windows (fun _ => ∅) d1 in
  let d3 := with_sys stop_monitoring d2 in
  let d4 := show CloseConn
              (with_sys (with_db (fun c => mkConn (committed c) None)) d3) in
  show DestroyRoot d4.

Section MainLoop.

Variable strftime : string -> DateTime -> string.
Variable os_path_join : string -> string -> string.
Variable ALERTS_DIR : string.

(** What the main loop does with a callback of the pipeline; an exception
    in a callback is reported by Tk and the loop goes on. *)
Definition run_callback (env : SaveEnv) (query_ok : bool) (cb : Callback)
    (d : Desk) : Desk :=
  match cb with
  | CbSaveViolation f =>
      with_sys (fun s =>
        snd (save_violation strftime os_path_join ALERTS_DIR env f s)) d
  | CbRefreshLogs => with_sys (refresh_logs query_ok) d
  | CbShowWarning => show ShowViolationWarning d
  end.

(** The main loop takes the oldest callback off the queue and runs it. *)
Definition run_next (env : SaveEnv) (query_ok : bool) (d : Desk) : Desk :=
  match after_queue (sys d) with
  | [] => d
  | cb :: rest =>
      run_callback env query_ok cb
        (with_sys (fun s =>
           {| app := app s; files := files s; db := db s;
              after_queue := rest; host := host s;
              log_box := log_box s |}) d)
  end.

End MainLoop.

(** *** Concrete data for the rest of the application *)

(** Two violations, a clearing of the table, and one more violation. *)
Definition sample_ops : list TableOp :=
  [OpInsert "2024-03-09 14:05:30" "alice" "Mobile Phone" "a.jpg";
   OpInsert "2024-03-09 14:06:10" "alice" "Mobile Phone" "b.jpg";
   OpDeleteAll;
   OpInsert "2024-03-09 14:09:00" "alice" "Mobile Phone" "c.jpg"].

(** Hosts in which the insert or the commit raises, and a later host. *)
Definition env_no_insert : SaveEnv :=
  mkSaveEnv sample_now (Some "alice") Written false true true.

Definition env_no_commit : SaveEnv :=
  mkSaveEnv sample_now (Some "alice") Written true false true.

Definition env_later : SaveEnv :=
  mkSaveEnv (mkDateTime 2024 3 9 14 6 10) (Some "alice") Written true true true.

(** A desk on which the evidence image of the sample violation is on
    disk. *)
Definition photo_desk : Desk :=
  with_sys (with_files (fun _ => {[sample_path := [1; 2; 3]]})) init_desk.

(** ** The gates, pass by pass *)

Lemma gates_quiet hit now f s :
  observe hit (app s) = false ->
  gates hit now f s = with_app (set_detect_streak (streak_after hit (app s))) s.
Proof.
  intros Hobs. unfold gates. cbn. unfold observe in Hobs.
  now rewrite Hobs.
Qed.

Lemma gates_rejected hit now f s :
  observe hit (app s) = true ->
  cooldown_over now (app s) = false ->
  gates hit now f s = with_app (set_detect_streak (streak_after hit (app s))) s.
Proof.
  intros Hobs Hcd. unfold gates, cooldown_gate. cbn. unfold observe in Hobs.
  rewrite Hobs. unfold cooldown_over in *. cbn. now rewrite Hcd.
Qed.

Lemma gates_admitted hit now f s :
  observe hit (app s) = true ->
  cooldown_over now (app s) = true ->
  gates hit now f s =
    with_app (set_detect_streak 0)
      (after (CbSaveViolation f)
         (with_app (set_last_alert_time now)
            (with_app (set_detect_streak (streak_after hit (app s))) s))).
Proof.
  intros Hobs Hcd. unfold gates, cooldown_gate. cbn. unfold observe in Hobs.
  rewrite Hobs. unfold cooldown_over in *. cbn. now rewrite Hcd.
Qed.

(** The three ways a pass through lines 273-283 can go. *)
Lemma gates_cases hit now f s :
  (observe hit (app s) = false /\
   gates hit now f s =
     with_app (set_detect_streak (streak_after hit (app s))) s) \/
  (observe hit (app s) = true /\ cooldown_over now (app s) = false /\
   gates hit now f s =
     with_app (set_detect_streak (streak_after hit (app s))) s) \/
  (observe hit (app s) = true /\ cooldown_over now (app s) = true /\
   gates hit now f s =
     with_app (set_detect_streak 0)
       (after (CbSaveViolation f)
          (with_app (set_last_alert_time now)
             (with_app (set_detect_streak (streak_after hit (app s))) s)))).
Proof.
  destruct (observe hit (app s)) eqn:Hobs.
  - destruct (cooldown_over now (app s)) eqn:Hcd.
    + right; right. auto using gates_admitted.
    + right; left. auto using gates_rejected.
  - left. auto using gates_quiet.
Qed.

(** The two ways a pass can go when line 282 raises. *)
Lemma gates_unscheduled_cases hit now s :
  ((observe hit (app s) = false \/ cooldown_over now (app s) = false) /\
   gates_unscheduled hit now s =
     with_app (set_detect_streak (streak_after hit (app s))) s) \/
  (observe hit (app s) = true /\ cooldown_over now (app s) = true /\
   gates_unscheduled hit now s =
     emit Print
       (with_app (set_last_alert_time now)
          (with_app (set_detect_streak (streak_after hit (app s))) s))).
Proof.
  unfold gates_unscheduled, observe. cbn.
  destruct (streak_reached _) eqn:Hobs; [|left; auto].
  unfold cooldown_over. cbn.
  destruct (alert_cooldown_seconds (app s) <=? now - last_alert_time (app s))
    eqn:Hcd; [right|left]; auto.
Qed.

Lemma gates_unscheduled_settings hit now s :
  monitoring (app (gates_unscheduled hit now s)) = monitoring (app s) /\
  required_streak (app (gates_unscheduled hit now s)) =
    required_streak (app s) /\
  alert_cooldown_seconds (app (gates_unscheduled hit now s)) =
    alert_cooldown_seconds (app s) /\
  files (gates_unscheduled hit now s) = files s /\
  db (gates_unscheduled hit now s) = db s.
Proof.
  destruct (gates_unscheduled_cases hit now s) as [[_ ->]|(_ & _ & ->)];
    cbn; repeat split; reflexivity.
Qed.

(** What no pass changes. *)
Lemma gates_settings hit now f s :
  monitoring (app (gates hit now f s)) = monitoring (app s) /\
  required_streak (app (gates hit now f s)) = required_streak (app s) /\
  alert_cooldown_seconds (app (gates hit now f s)) =
    alert_cooldown_seconds (app s) /\
  files (gates hit now f s) = files s /\
  db (gates hit now f s) = db s.
Proof.
  destruct (gates_cases hit now f s) as [[_ ->]|[(_ & _ & ->)|(_ & _ & ->)]];
    cbn; repeat split; reflexivity.
Qed.

Lemma frame_iteration_settings rd s :
  monitoring (app (frame_iteration rd s)) = monitoring (app s) /\
  required_streak (app (frame_iteration rd s)) = required_streak (app s) /\
  alert_cooldown_seconds (app (frame_iteration rd s)) =
    alert_cooldown_seconds (app s) /\
  files (frame_iteration rd s) = files s /\
  db (frame_iteration rd s) = db s.
Proof.
  destruct rd as [| |f r c|f r c]; cbn; try (repeat split; reflexivity).
  - destruct (monitoring (app s)) eqn:Hm; cbn.
    + rewrite <- Hm. apply gates_settings.
    + rewrite Hm. repeat split; reflexivity.
  - destruct (monitoring (app s)) eqn:Hm; cbn.
    + rewrite <- Hm. apply gates_unscheduled_settings.
    + rewrite Hm. repeat split; reflexivity.
Qed.

Lemma update_frame_settings rds : forall s,
  monitoring (app (update_frame rds s)) = monitoring (app s) /\
  required_streak (app (update_frame rds s)) = required_streak (app s) /\
  alert_cooldown_seconds (app (update_frame rds s)) =
    alert_cooldown_seconds (app s) /\
  files (update_frame rds s) = files s /\
  db (update_frame rds s) = db s.
Proof.
  induction rds as [|rd rds IH]; intros s; cbn.
  - repeat split; reflexivity.
  - destruct (monitoring (app s)) eqn:Hm.
    + destruct (IH (frame_iteration rd s)) as (-> & -> & -> & -> & ->).
      rewrite <- Hm. apply frame_iteration_settings.
    + rewrite Hm. repeat split; reflexivity.
Qed.

(** The loop, one more pass at the end. *)
Lemma update_frame_snoc rds rd s :
  monitoring (app s) = true ->
  update_frame (rds ++ [rd]) s = frame_iteration rd (update_frame rds s).
Proof.
  revert s. induction rds as [|r rds IH]; intros s Hm; cbn.
  - now rewrite Hm.
  - rewrite Hm. apply IH.
    destruct (frame_iteration_settings r s) as (-> & _). exact Hm.
Qed.

Lemma update_frame_app rds1 rds2 s :
  monitoring (app s) = true ->
  update_frame (rds1 ++ rds2) s = update_frame rds2 (update_frame rds1 s).
Proof.
  revert s. induction rds1 as [|r rds IH]; intros s Hm; cbn; auto.
  rewrite Hm. apply IH.
  destruct (frame_iteration_settings r s) as (-> & _). exact Hm.
Qed.

(** ** The Cooldown Gate *)

Lemma cooldown_over_spec now a :
  cooldown_over now a = true <->
  alert_cooldown_seconds a <= now - last_alert_time a.
Proof. unfold cooldown_over. apply Z.leb_le. Qed.

Lemma cooldown_over_false now a :
  cooldown_over now a = false <->
  now - last_alert_time a < alert_cooldown_seconds a.
Proof. unfold cooldown_over. apply Z.leb_gt. Qed.

Lemma cooldown_gate_fst now f s :
  fst (cooldown_gate now f s) = cooldown_over now (app s).
Proof. unfold cooldown_gate. now destruct (cooldown_over now (app s)). Qed.

(** C2: at a clock reading that is not below the cooldown (as every
    reading of [time.time()], seconds since 1970, is), [cooldown_gate]
    takes the admitting branch exactly when [last_alert_time] is "never"
    or [now - last_alert_time >= alert_cooldown_seconds]; admitting sets
    [last_alert_time] to [now], rejecting leaves the whole state as it
    was.  Hence, after an admission at [now], a call at a later [t2] is
    rejected when [t2 - now] is below the cooldown and admitted
    otherwise. *)
Theorem cooldown_gate_admits (now : Z) (f : Frame) (s : Sys) :
  alert_cooldown_seconds (app s) <= now ->
  (fst (cooldown_gate now f s) = true <->
   (last_alert_time (app s) = never \/
    alert_cooldown_seconds (app s) <= now - last_alert_time (app s))) /\
  (fst (cooldown_gate now f s) = true ->
   last_alert_time (app (snd (cooldown_gate now f s))) = now) /\
  (fst (cooldown_gate now f s) = false -> snd (cooldown_gate now f s) = s) /\
  (forall (t2 : Z) (f2 : Frame),
     now < t2 ->
     fst (cooldown_gate now f s) = true ->
     (t2 - now < alert_cooldown_seconds (app s) ->
      fst (cooldown_gate t2 f2 (snd (cooldown_gate now f s))) = false) /\
     (alert_cooldown_seconds (app s) <= t2 - now ->
      fst (cooldown_gate t2 f2 (snd (cooldown_gate now f s))) = true)).
Proof.
  intros Hclock. rewrite cooldown_gate_fst.
  split; [|split; [|split]].
  - rewrite cooldown_over_spec. split; [auto|].
    intros [Hnever|Hge]; [|exact Hge].
    rewrite Hnever. unfold never. cbn. lia.
  - intros Hadm. unfold cooldown_gate. now rewrite Hadm.
  - intros Hrej. unfold cooldown_gate. now rewrite Hrej.
  - intros t2 f2 Hlater Hadm. rewrite cooldown_gate_fst.
    unfold cooldown_gate. rewrite Hadm. cbn. split.
    + intros Hlt. apply cooldown_over_false; cbn. lia.
    + intros Hge. apply cooldown_over_spec; cbn. lia.
Qed.

(** ** Rejections keep the streak *)

(** A pass schedules nothing or one callback. *)
Lemma frame_iteration_queue_length rd s :
  after_queue (frame_iteration rd s) = after_queue s \/
  length (after_queue (frame_iteration rd s)) = S (length (after_queue s)).
Proof.
  destruct rd as [| |f r c|f r c]; cbn; auto.
  - destruct (monitoring (app s)); cbn; auto.
    destruct (gates_cases (phone_detected r) c f s)
      as [[_ ->]|[(_ & _ & ->)|(_ & _ & ->)]]; cbn; auto.
    right. rewrite length_app. cbn. lia.
  - destruct (monitoring (app s)); cbn; auto.
    destruct (gates_unscheduled_cases (phone_detected r) c s)
      as [[_ ->]|(_ & _ & ->)]; cbn; auto.
Qed.

Lemma queue_grows_or_same rds : forall s,
  after_queue (update_frame rds s) = after_queue s \/
  (length (after_queue s) < length (after_queue (update_frame rds s)))%nat.
Proof.
  induction rds as [|rd rds IH]; intros s; cbn; auto.
  destruct (monitoring (app s)) eqn:Hm; auto.
  destruct (IH (frame_iteration rd s)) as [Hq|Hlt];
    destruct (frame_iteration_queue_length rd s) as [Hq'|Hlen].
  - left. congruence.
  - right. rewrite Hq. lia.
  - right. rewrite <- Hq'. exact Hlt.
  - right. lia.
Qed.

(** A pass that does not go through line 281 leaves the queue of
    callbacks, [last_alert_time] and the cooldown setting alone. *)
Lemma unadmitted_pass_keeps rd s :
  admits rd s = false ->
  after_queue (frame_iteration rd s) = after_queue s /\
  last_alert_time (app (frame_iteration rd s)) = last_alert_time (app s).
Proof.
  destruct rd as [| |f r c|f r c]; cbn; auto.
  - destruct (monitoring (app s)); cbn; auto. intros Hadm.
    destruct (gates_cases (phone_detected r) c f s)
      as [[_ ->]|[(_ & _ & ->)|(Hobs & Hcd & _)]]; cbn; auto.
    rewrite Hobs, Hcd in Hadm. discriminate.
  - destruct (monitoring (app s)); cbn; auto. intros Hadm.
    destruct (gates_unscheduled_cases (phone_detected r) c s)
      as [[_ ->]|(Hobs & Hcd & _)]; cbn; auto.
    rewrite Hobs, Hcd in Hadm. discriminate.
Qed.

(** Passes none of which goes through line 281 leave them alone too. *)
Lemma no_admission_keeps rds : forall s,
  no_admission rds s = true ->
  after_queue (update_frame rds s) = after_queue s /\
  last_alert_time (app (update_frame rds s)) = last_alert_time (app s).
Proof.
  induction rds as [|rd rds IH]; intros s Hno; cbn; auto.
  destruct (monitoring (app s)) eqn:Hm; auto.
  cbn in Hno. apply andb_true_iff in Hno as [Hrd Hrest].
  apply negb_true_iff in Hrd.
  destruct (unadmitted_pass_keeps rd s Hrd) as [Hq Hl].
  destruct (IH _ Hrest) as [Hq' Hl']. split; congruence.
Qed.

(** C9: a pass on which the streak is reached but the cooldown rejects
    keeps the counter at its incremented value (no reset), changes neither
    [last_alert_time] nor the queue of callbacks; and after any further
    passes none of which the cooldown admits (none goes through line
    281), the next pass on which the streak is reached is admitted or
    rejected by its own clock reading alone: admitted (save scheduled,
    [last_alert_time] set, counter reset) when the cooldown has elapsed by
    then, rejected otherwise. *)
Theorem rejection_keeps_streak (hit : bool) (now : Z) (f : Frame) (s : Sys)
    (mid : list Reading) (hit' : bool) (now' : Z) (f' : Frame) :
  observe hit (app s) = true ->
  cooldown_over now (app s) = false ->
  let s1 := gates hit now f s in
  let s2 := update_frame mid s1 in
  (detect_streak (app s1) = streak_after hit (app s) /\
   required_streak (app s) <= detect_streak (app s1) /\
   last_alert_time (app s1) = last_alert_time (app s) /\
   after_queue s1 = after_queue s) /\
  (no_admission mid s1 = true ->
   observe hit' (app s2) = true ->
   (alert_cooldown_seconds (app s) <= now' - last_alert_time (app s) ->
    after_queue (gates hit' now' f' s2) =
      after_queue s ++ [CbSaveViolation f'] /\
    last_alert_time (app (gates hit' now' f' s2)) = now' /\
    detect_streak (app (gates hit' now' f' s2)) = 0) /\
   (now' - last_alert_time (app s) < alert_cooldown_seconds (app s) ->
    after_queue (gates hit' now' f' s2) = after_queue s /\
    last_alert_time (app (gates hit' now' f' s2)) = last_alert_time (app s) /\
    detect_streak (app (gates hit' now' f' s2)) =
      streak_after hit' (app s2))).
Proof.
  intros Hobs Hcd s1 s2.
  assert (Hs1 : s1 = with_app (set_detect_streak (streak_after hit (app s))) s)
    by (apply gates_rejected; assumption).
  split.
  - rewrite Hs1; cbn. repeat split.
    unfold observe, streak_reached in Hobs. cbn in Hobs. lia.
  - intros Hno Hobs'.
    destruct (no_admission_keeps mid s1 Hno) as [Hq Hl]. fold s2 in Hq, Hl.
    assert (Hlast : last_alert_time (app s2) = last_alert_time (app s)).
    { rewrite Hl, Hs1. reflexivity. }
    assert (Hcool : alert_cooldown_seconds (app s2) =
                    alert_cooldown_seconds (app s)).
    { unfold s2. destruct (update_frame_settings mid s1) as (_ & _ & -> & _).
      rewrite Hs1. reflexivity. }
    assert (Hq2 : after_queue s2 = after_queue s).
    { rewrite Hq, Hs1. reflexivity. }
    split.
    + intros Hge.
      rewrite gates_admitted; [cbn | assumption |].
      * rewrite Hq2. repeat split.
      * apply cooldown_over_spec. lia.
    + intros Hlt.
      rewrite gates_rejected; [cbn | assumption |].
      * rewrite Hq2, Hlast. repeat split.
      * apply cooldown_over_false. lia.
Qed.

(** ** The Debounce Gate over a run of the loop *)

Lemma frame_iteration_skip rd s :
  hits [rd] = [] -> app (frame_iteration rd s) = app s.
Proof. destruct rd; cbn; intros; auto; discriminate. Qed.

Lemma hits_app rds1 rds2 : hits (rds1 ++ rds2) = hits rds1 ++ hits rds2.
Proof. apply omap_app. Qed.

Lemma hits_captured f r c : hits [Captured f r c] = [phone_detected r].
Proof. reflexivity. Qed.

Lemma hits_unscheduled f r c : hits [Unscheduled f r c] = [phone_detected r].
Proof. reflexivity. Qed.

(** The counter never exceeds the run of detections the history ends
    with. *)
Lemma streak_is_recent_run rds : forall s,
  monitoring (app s) = true ->
  detect_streak (app s) = 0 ->
  0 <= detect_streak (app (update_frame rds s)) /\
  exists pre,
    hits rds =
    pre ++ replicate (Z.to_nat (detect_streak (app (update_frame rds s)))) true.
Proof.
  induction rds as [|rd rds IH] using rev_ind; intros s Hm H0.
  - cbn. rewrite H0. split; [lia | now exists []].
  - rewrite update_frame_snoc by assumption.
    destruct (IH s Hm H0) as (Hge & pre & Hpre).
    destruct (update_frame_settings rds s) as (Hm' & _). rewrite Hm in Hm'.
    rewrite hits_app.
    set (s' := update_frame rds s) in *.
    assert (Hhit : forall (r : list Result) t,
      detect_streak (app t) = streak_after (phone_detected r) (app s') ->
      0 <= detect_streak (app t) /\
      exists pre0, hits rds ++ [phone_detected r] =
        pre0 ++ replicate (Z.to_nat (detect_streak (app t))) true).
    { intros r t ->. unfold streak_after. destruct (phone_detected r).
      - split; [lia|]. exists pre.
        rewrite Z2Nat.inj_add, Nat.add_1_r, replicate_S_end by lia.
        rewrite Hpre. now rewrite <- app_assoc.
      - split; [lia|]. exists (hits rds ++ [false]). cbn.
        now rewrite app_nil_r. }
    destruct rd as [| |f r c|f r c].
    + cbn. rewrite app_nil_r. eauto.
    + cbn. rewrite app_nil_r. eauto.
    + rewrite hits_captured. cbn [frame_iteration]. rewrite Hm'. cbn [negb].
      destruct (gates_cases (phone_detected r) c f s')
        as [[_ ->]|[(_ & _ & ->)|(_ & _ & ->)]].
      * now apply Hhit.
      * now apply Hhit.
      * cbn. split; [lia|]. eexists. now rewrite app_nil_r.
    + rewrite hits_unscheduled. cbn [frame_iteration]. rewrite Hm'.
      cbn [negb].
      destruct (gates_unscheduled_cases (phone_detected r) c s')
        as [[_ ->]|(_ & _ & ->)]; now apply Hhit.
Qed.

Lemma recent_all_true_intro (n m : nat) (pre : list bool) :
  (n <= m)%nat ->
  recent_all_true n (pre ++ replicate m true) = true.
Proof.
  intros Hle. unfold recent_all_true. apply bool_decide_eq_true.
  rewrite reverse_app, reverse_replicate.
  rewrite take_app_le by (rewrite length_replicate; lia).
  rewrite take_replicate. f_equal. lia.
Qed.

(** Detections that schedule nothing add up in the counter. *)
Lemma quiet_hits_add_up mid : forall (k : nat) s,
  monitoring (app s) = true ->
  hits mid = replicate k true ->
  after_queue (update_frame mid s) = after_queue s ->
  detect_streak (app (update_frame mid s)) = detect_streak (app s) + Z.of_nat k.
Proof.
  induction mid as [|rd mid IH]; intros k s Hm Hh Hq.
  - destruct k; [cbn; lia | discriminate].
  - cbn [update_frame] in *. rewrite Hm in *.
    assert (Hm1 : monitoring (app (frame_iteration rd s)) = true).
    { destruct (frame_iteration_settings rd s) as (-> & _). exact Hm. }
    destruct rd as [| |f r c|f r c].
    + cbn in *. now apply IH.
    + cbn [frame_iteration] in *. change (hits (Failure :: mid)) with (hits mid) in Hh.
      rewrite (IH k (emit Print s)); auto.
    + change (hits (Captured f r c :: mid))
        with (phone_detected r :: hits mid) in Hh.
      destruct k as [|k]; [discriminate|].
      cbn [replicate] in Hh. injection Hh as Hhit Hh.
      cbn [frame_iteration] in *. rewrite Hm in *. cbn [negb] in *.
      rewrite Hhit in *.
      destruct (gates_cases true c f s)
        as [[_ Hg]|[(_ & _ & Hg)|(_ & _ & Hg)]]; rewrite Hg in *.
      * rewrite (IH k _ Hm1 Hh Hq). cbn. lia.
      * rewrite (IH k _ Hm1 Hh Hq). cbn. lia.
      * exfalso.
        match type of Hq with after_queue (update_frame mid ?t) = _ =>
          destruct (queue_grows_or_same mid t) as [Hq'|Hlt] end.
        -- rewrite Hq' in Hq. cbn in Hq.
           apply (f_equal length) in Hq. rewrite length_app in Hq.
           cbn in Hq. lia.
        -- rewrite Hq in Hlt. cbn in Hlt. rewrite length_app in Hlt.
           cbn in Hlt. lia.
    + change (hits (Unscheduled f r c :: mid))
        with (phone_detected r :: hits mid) in Hh.
      destruct k as [|k]; [discriminate|].
      cbn [replicate] in Hh. injection Hh as Hhit Hh.
      cbn [frame_iteration] in *. rewrite Hm in *. cbn [negb] in *.
      rewrite Hhit in *.
      destruct (gates_unscheduled_cases true c s)
        as [[_ Hg]|(_ & _ & Hg)]; rewrite Hg in *;
        rewrite (IH k _ Hm1 Hh Hq); cbn; lia.
Qed.

(** C1, as the code has it.  From a running pipeline whose counter is 0
    and with [required_streak >= 1], for the pass on a captured frame
    that follows any passes [rds]:
    - the streak is reached only if the [required_streak] most recent
      frames all had a detection;
    - it is reached whenever the frame has a detection and the
      [required_streak - 1] frames before it had one each without a
      violation being scheduled among them;
    - the counter is set to 0 when the cooldown admits the violation, and
      is kept at its incremented value when the cooldown rejects it;
    - a frame without a detection sets the counter to 0 and reaches
      nothing. *)
Theorem debounce_gate_fires (s : Sys) (rds : list Reading)
    (f : Frame) (r : list Result) (c : Z) :
  monitoring (app s) = true ->
  detect_streak (app s) = 0 ->
  1 <= required_streak (app s) ->
  let s1 := update_frame rds s in
  let hit := phone_detected r in
  let s2 := frame_iteration (Captured f r c) s1 in
  (observe hit (app s1) = true ->
   recent_all_true (Z.to_nat (required_streak (app s)))
     (hits (rds ++ [Captured f r c])) = true) /\
  (forall pre mid,
     rds = pre ++ mid ->
     hits mid = replicate (Z.to_nat (required_streak (app s) - 1)) true ->
     after_queue (update_frame mid (update_frame pre s)) =
       after_queue (update_frame pre s) ->
     hit = true ->
     observe hit (app s1) = true) /\
  (observe hit (app s1) = true -> cooldown_over c (app s1) = true ->
   detect_streak (app s2) = 0) /\
  (observe hit (app s1) = true -> cooldown_over c (app s1) = false ->
   detect_streak (app s2) = detect_streak (app s1) + 1 /\
   required_streak (app s) <= detect_streak (app s2)) /\
  (hit = false -> observe hit (app s1) = false /\ detect_streak (app s2) = 0).
Proof.
  intros Hm H0 Hreq s1 hit s2.
  destruct (update_frame_settings rds s) as (Hm1 & Hr1 & _).
  fold s1 in Hm1, Hr1. rewrite Hm in Hm1.
  destruct (streak_is_recent_run rds s Hm H0) as (Hge & pre0 & Hpre0).
  fold s1 in Hge, Hpre0.
  assert (Hs2 : s2 = gates hit c f s1).
  { unfold s2. cbn. now rewrite Hm1. }
  assert (Hobs_hit : observe hit (app s1) = true -> hit = true).
  { unfold observe, streak_reached, streak_after. cbn.
    destruct hit; [reflexivity|]. rewrite Hr1. lia. }
  repeat split.
  - intros Hobs. pose proof (Hobs_hit Hobs) as Hhit.
    rewrite hits_app, hits_captured. fold hit. rewrite Hhit, Hpre0.
    rewrite <- app_assoc, <- replicate_S_end.
    apply recent_all_true_intro.
    unfold observe, streak_reached, streak_after in Hobs. cbn in Hobs.
    rewrite Hhit, Hr1 in Hobs. lia.
  - intros pre mid Hrds Hmid Hq Hhit.
    assert (Hpre_m : monitoring (app (update_frame pre s)) = true).
    { destruct (update_frame_settings pre s) as (-> & _). exact Hm. }
    destruct (streak_is_recent_run pre s Hm H0) as (Hge_pre & _).
    pose proof (quiet_hits_add_up mid _ _ Hpre_m Hmid Hq) as Hsum.
    rewrite <- update_frame_app, <- Hrds in Hsum by assumption.
    fold s1 in Hsum.
    unfold observe, streak_reached, streak_after. cbn.
    rewrite Hhit, Hr1. lia.
  - intros Hobs Hcd. rewrite Hs2, gates_admitted by assumption. reflexivity.
  - rewrite Hs2, gates_rejected by assumption. cbn.
    rewrite (Hobs_hit H). reflexivity.
  - rewrite Hs2, gates_rejected by assumption. cbn.
    unfold observe, streak_reached in H. cbn in H. rewrite Hr1 in H. lia.
  - unfold observe, streak_reached, streak_after. cbn.
    rewrite H, Hr1. lia.
  - rewrite Hs2. rewrite gates_quiet.
    + cbn. unfold streak_after. now rewrite H.
    + unfold observe, streak_reached, streak_after. cbn.
      rewrite H, Hr1. lia.
Qed.

(** ** A scheduled violation and the cooldown *)

Lemma no_admission_below now rds : forall s,
  clocks_below (now + alert_cooldown_seconds (app s)) rds ->
  last_alert_time (app s) = now ->
  after_queue (update_frame rds s) = after_queue s /\
  last_alert_time (app (update_frame rds s)) = now.
Proof.
  induction rds as [|rd rds IH]; intros s Hcl Hlast; cbn; auto.
  destruct (monitoring (app s)) eqn:Hm; auto.
  apply Forall_cons in Hcl as [Hrd Hcl].
  assert (Hstep : after_queue (frame_iteration rd s) = after_queue s /\
                  last_alert_time (app (frame_iteration rd s)) = now).
  { assert (Hadm : admits rd s = false).
    { destruct rd as [| |f r c|f r c]; cbn; auto;
        cbn in Hrd;
        (assert (Hcd : cooldown_over c (app s) = false)
           by (apply cooldown_over_false; lia));
        rewrite Hcd; apply andb_false_r. }
    destruct (unadmitted_pass_keeps rd s Hadm) as [Hq Hl]. split; congruence. }
  destruct Hstep as [Hq Hl].
  destruct (frame_iteration_settings rd s) as (_ & _ & Hcs & _).
  destruct (IH (frame_iteration rd s)) as [Hq' Hl']; auto.
  - now rewrite Hcs.
  - split; congruence.
Qed.

(** ** The store: ids and order *)

Lemma max_rowid_bound (rs : list Row) (x : Row) :
  x ∈ rs -> row_id x <= max_rowid rs.
Proof.
  induction 1 as [x rs|x y rs _ IH]; cbn [max_rowid foldr];
    fold (max_rowid rs); lia.
Qed.

(** The row an insert adds has an id above every id of the table. *)
Lemma new_row_id_fresh (t : Table) ts emp obj img :
  Forall (fun x => row_id x < row_id (new_row t ts emp obj img)) (rows t).
Proof.
  apply Forall_forall. intros x Hx. cbn. unfold next_rowid.
  pose proof (max_rowid_bound _ _ Hx). lia.
Qed.

Lemma insert_desc_top (r : Row) (l : list Row) (x : Row) :
  row_id x < row_id r ->
  insert_desc x (r :: l) = r :: insert_desc x l.
Proof.
  intros Hlt. cbn. destruct (row_id r <=? row_id x) eqn:E; [|reflexivity].
  apply Z.leb_le in E. lia.
Qed.

(** A row whose id is above all others comes first in [ORDER BY id DESC]. *)
Lemma order_by_id_desc_snoc (l : list Row) (r : Row) :
  Forall (fun x => row_id x < row_id r) l ->
  order_by_id_desc (l ++ [r]) = r :: order_by_id_desc l.
Proof.
  induction 1 as [|x l Hx _ IH]; [reflexivity|].
  cbn. fold (order_by_id_desc (l ++ [r])). fold (order_by_id_desc l).
  rewrite IH. now apply insert_desc_top.
Qed.

(** ** [save_violation] *)

Lemma dispatch_keeps_store (env : SaveEnv) (s : Sys) :
  db (snd (dispatch env s)) = db s /\
  files (snd (dispatch env s)) = files s /\
  app (snd (dispatch env s)) = app s.
Proof.
  unfold dispatch. run_act.
  destruct (String.eqb (action_mode (app s)) "Warn"); cbn; auto.
  destruct (String.eqb (action_mode (app s)) "Lock"); cbn; auto.
  destruct (env_lock_ok env); cbn; auto.
Qed.

Lemma persist_keeps_app (env : SaveEnv) ts emp obj img (s : Sys) :
  app (snd (persist env ts emp obj img s)) = app s /\
  files (snd (persist env ts emp obj img s)) = files s.
Proof.
  unfold persist. run_act.
  destruct (env_insert_ok env), (env_commit_ok env); cbn; auto.
Qed.

(** What [persist] leaves when both database calls go through. *)
Lemma persist_returns (env : SaveEnv) ts emp obj img (s : Sys) :
  env_insert_ok env = true ->
  env_commit_ok env = true ->
  persist env ts emp obj img s =
    (Returned tt,
     after CbRefreshLogs
       (with_db (fun _ => mkConn (insert_row ts emp obj img (view (db s))) None)
          s)).
Proof.
  intros Hi Hc. unfold persist. run_act. rewrite Hi, Hc. reflexivity.
Qed.

(** [persist] returns only when both database calls went through. *)
Lemma persist_returned_ok (env : SaveEnv) ts emp obj img (s s1 : Sys) u :
  persist env ts emp obj img s = (Returned u, s1) ->
  env_insert_ok env = true /\ env_commit_ok env = true.
Proof.
  unfold persist. run_act.
  destruct (env_insert_ok env), (env_commit_ok env); cbn; intros H;
    auto; discriminate.
Qed.

Section HostFacts.

Variable strftime : string -> DateTime -> string.
Variable os_path_join : string -> string -> string.
Variable ALERTS_DIR : string.

Local Abbreviation img_name := (img_name strftime os_path_join ALERTS_DIR).
Local Abbreviation timestamp_str := (timestamp_str strftime).
Local Abbreviation save_violation := (save_violation strftime os_path_join ALERTS_DIR).

Lemma save_violation_keeps_app (env : SaveEnv) (frame : Frame) (s : Sys) :
  app (snd (save_violation env frame s)) = app s.
Proof.
  unfold save_violation.
  unfold act_bind at 1.
  destruct (cv2_imwrite _ _ _ s) as [[[]|e] s0] eqn:Hw.
  - assert (Hs0 : app s0 = app s).
    { revert Hw. run_act. destruct (env_imwrite env); cbn; intros H;
        inversion H; reflexivity. }
    unfold act_bind at 1. unfold os_path_exists, gets.
    destruct (bool_decide _).
    + unfold act_bind.
      destruct (persist env _ _ _ _ s0) as [[[]|e] s1] eqn:Hp.
      * destruct (dispatch_keeps_store env s1) as (_ & _ & ->).
        destruct (persist_keeps_app env (timestamp_str (env_now env))
                    (employee_id env) "Mobile Phone"
                    (img_name (env_now env)) s0) as [Ha _].
        rewrite Hp in Ha. cbn in Ha. congruence.
      * destruct (persist_keeps_app env (timestamp_str (env_now env))
                    (employee_id env) "Mobile Phone"
                    (img_name (env_now env)) s0) as [Ha _].
        rewrite Hp in Ha. cbn in *. congruence.
    + cbn. exact Hs0.
  - revert Hw. run_act. destruct (env_imwrite env); cbn; intros H;
      inversion H; reflexivity.
Qed.

(** The method, branch by branch. *)
Lemma save_violation_unfold (env : SaveEnv) (frame : Frame) (s : Sys) :
  save_violation env frame s =
  match cv2_imwrite (env_imwrite env) (img_name (env_now env)) frame s with
  | (Returned _, s0) =>
      if bool_decide (is_Some (files s0 !! img_name (env_now env))) then
        match persist env (timestamp_str (env_now env)) (employee_id env)
                "Mobile Phone" (img_name (env_now env)) s0 with
        | (Returned _, s1) => dispatch env s1
        | (Raised e, s1) => (Raised e, s1)
        end
      else (Returned tt, s0)
  | (Raised e, s0) => (Raised e, s0)
  end.
Proof.
  unfold save_violation, act_bind, os_path_exists, gets.
  destruct (cv2_imwrite _ _ _ s) as [[u|e] s0]; [|reflexivity].
  destruct (bool_decide _); reflexivity.
Qed.

Lemma cv2_imwrite_keeps_db w img frame (s : Sys) :
  db (snd (cv2_imwrite w img frame s)) = db s /\
  app (snd (cv2_imwrite w img frame s)) = app s /\
  after_queue (snd (cv2_imwrite w img frame s)) = after_queue s.
Proof. destruct w; cbn; auto. Qed.

(** C3: when the image file does not exist after the write attempt of
    [cv2.imwrite], the call inserts no row: the connection is left as it
    was, so the committed table and the table the connection reads have
    the rows they had. *)
Theorem no_image_no_row (env : SaveEnv) (frame : Frame) (s : Sys) :
  files (snd (cv2_imwrite (env_imwrite env) (img_name (env_now env)) frame s))
    !! img_name (env_now env) = None ->
  db (snd (save_violation env frame s)) = db s /\
  length (rows (committed (db (snd (save_violation env frame s))))) =
    length (rows (committed (db s))) /\
  length (rows (view (db (snd (save_violation env frame s))))) =
    length (rows (view (db s))).
Proof.
  intros Hnone.
  assert (Hdb : db (snd (save_violation env frame s)) = db s).
  { rewrite save_violation_unfold.
    destruct (cv2_imwrite_keeps_db (env_imwrite env) (img_name (env_now env))
                frame s) as (Hdb & _).
    destruct (cv2_imwrite _ _ _ s) as [[u|e] s0]; cbn in *; [|exact Hdb].
    rewrite Hnone. rewrite bool_decide_eq_false_2; [exact Hdb|].
    intros [x Hx]. discriminate. }
  rewrite Hdb. auto.
Qed.

(** C4: when the image is written and the insert and the commit go
    through, the table gains exactly one row, appended with a fresh id
    above all others and committed; the path stored in that row is the
    path of the image, where the file now holds the frame, and no other
    file is touched; a refresh of the log box is scheduled, and the query
    of [refresh_logs] on the resulting store lists the new row first. *)
Theorem recorded_violation_visible (env : SaveEnv) (frame : Frame) (s : Sys) :
  env_imwrite env = Written ->
  env_insert_ok env = true ->
  env_commit_ok env = true ->
  let s' := snd (save_violation env frame s) in
  let r := new_row (view (db s)) (timestamp_str (env_now env))
             (employee_id env) "Mobile Phone" (img_name (env_now env)) in
  rows (committed (db s')) = rows (view (db s)) ++ [r] /\
  txn (db s') = None /\
  length (rows (view (db s'))) = S (length (rows (view (db s)))) /\
  Forall (fun x => row_id x < row_id r) (rows (view (db s))) /\
  image_path r = img_name (env_now env) /\
  files s' !! image_path r = Some frame /\
  (forall p, p <> image_path r -> files s' !! p = files s !! p) /\
  CbRefreshLogs ∈ after_queue s' /\
  head (recent_violations (db s')) = Some (log_line r) /\
  head (log_box (refresh_logs true s')) = Some (log_line r).
Proof.
  intros Hw Hi Hc s' r.
  assert (Hs' : exists s1,
    s' = snd (dispatch env s1) /\
    db s1 = mkConn (insert_row (timestamp_str (env_now env)) (employee_id env)
                      "Mobile Phone" (img_name (env_now env)) (view (db s)))
              None /\
    files s1 = <[img_name (env_now env) := frame]> (files s) /\
    CbRefreshLogs ∈ after_queue s1).
  { unfold s'. rewrite save_violation_unfold, Hw. cbn.
    rewrite lookup_insert_eq.
    rewrite bool_decide_eq_true_2 by (now exists frame).
    rewrite persist_returns by assumption.
    eexists. split; [reflexivity|]. cbn. repeat split.
    apply elem_of_app. right. apply list_elem_of_singleton. reflexivity. }
  destruct Hs' as (s1 & Hs1 & Hdb1 & Hf1 & Hq1).
  destruct (dispatch_keeps_store env s1) as (Hdb & Hfiles & _).
  rewrite <- Hs1 in Hdb, Hfiles.
  assert (Hq : CbRefreshLogs ∈ after_queue s').
  { rewrite Hs1. unfold dispatch. run_act.
    destruct (String.eqb (action_mode (app s1)) "Warn"); cbn.
    - apply elem_of_app. now left.
    - destruct (String.eqb (action_mode (app s1)) "Lock"); cbn; auto.
      destruct (env_lock_ok env); cbn; auto. }
  assert (Hfresh : Forall (fun x => row_id x < row_id r) (rows (view (db s))))
    by apply new_row_id_fresh.
  assert (Hrecent : head (recent_violations (db s')) = Some (log_line r)).
  { unfold recent_violations. rewrite Hdb, Hdb1. cbn.
    fold r. rewrite order_by_id_desc_snoc by exact Hfresh. reflexivity. }
  assert (Hbox : head (log_box (refresh_logs true s')) = Some (log_line r))
    by exact Hrecent.
  revert Hrecent Hbox. generalize (recent_violations (db s')).
  generalize (log_box (refresh_logs true s')). intros box recent Hrecent Hbox.
  rewrite Hdb, Hdb1, Hfiles, Hf1. cbn. fold r.
  repeat split; auto.
  - rewrite length_app. cbn. lia.
  - apply lookup_insert_eq.
  - intros p Hp. now apply lookup_insert_ne.
Qed.

(** C5: when the image exists and [persist] returns, what remains of
    [save_violation] is the dispatch, run on a state whose committed table
    already ends with the new row and has no open transaction; however the
    dispatch ends (returning or raising), it leaves the connection and the
    files as they were, so the row is still there when the method is
    done. *)
Theorem dispatch_after_commit (env : SaveEnv) (frame : Frame)
    (s s0 s1 : Sys) :
  cv2_imwrite (env_imwrite env) (img_name (env_now env)) frame s =
    (Returned tt, s0) ->
  is_Some (files s0 !! img_name (env_now env)) ->
  persist env (timestamp_str (env_now env)) (employee_id env) "Mobile Phone"
    (img_name (env_now env)) s0 = (Returned tt, s1) ->
  let r := new_row (view (db s)) (timestamp_str (env_now env))
             (employee_id env) "Mobile Phone" (img_name (env_now env)) in
  save_violation env frame s = dispatch env s1 /\
  rows (committed (db s1)) = rows (view (db s)) ++ [r] /\
  txn (db s1) = None /\
  db (snd (dispatch env s1)) = db s1 /\
  files (snd (dispatch env s1)) = files s1 /\
  r ∈ rows (committed (db (snd (save_violation env frame s)))).
Proof.
  intros Hw Hex Hp r.
  assert (Hsv : save_violation env frame s = dispatch env s1).
  { rewrite save_violation_unfold, Hw.
    rewrite bool_decide_eq_true_2 by exact Hex. now rewrite Hp. }
  destruct (persist_returned_ok _ _ _ _ _ _ _ _ Hp) as [Hi Hc].
  rewrite persist_returns in Hp by assumption.
  injection Hp as Hs1.
  destruct (cv2_imwrite_keeps_db (env_imwrite env) (img_name (env_now env))
              frame s) as (Hdb0 & _).
  rewrite Hw in Hdb0. cbn in Hdb0.
  destruct (dispatch_keeps_store env s1) as (Hdb & Hfiles & _).
  assert (Hrows : rows (committed (db s1)) = rows (view (db s)) ++ [r]).
  { rewrite <- Hs1. cbn. rewrite Hdb0. reflexivity. }
  repeat split; auto.
  - rewrite <- Hs1. reflexivity.
  - rewrite Hsv, Hdb, Hrows. apply elem_of_app. right.
    apply list_elem_of_singleton. reflexivity.
Qed.

(** C10: on a pass where the streak is reached and the cooldown admits,
    [last_alert_time] is already [now] when [save_violation] is only
    queued; running [save_violation] later, whatever its writes do,
    changes no field of the application; so as long as the clock stays
    below [now + alert_cooldown_seconds], before or after that run, the
    loop schedules no further violation and [last_alert_time] stays
    [now]. *)
Theorem failed_recording_consumes_cooldown (hit : bool) (now : Z)
    (f : Frame) (s : Sys) (env : SaveEnv) (rds1 rds2 : list Reading) :
  observe hit (app s) = true ->
  cooldown_over now (app s) = true ->
  clocks_below (now + alert_cooldown_seconds (app s)) rds1 ->
  clocks_below (now + alert_cooldown_seconds (app s)) rds2 ->
  let s1 := gates hit now f s in
  let t := update_frame rds1 s1 in
  let t' := snd (save_violation env f t) in
  let u := update_frame rds2 t' in
  (last_alert_time (app s1) = now /\
   after_queue s1 = after_queue s ++ [CbSaveViolation f] /\
   db s1 = db s /\ files s1 = files s) /\
  (after_queue t = after_queue s1 /\ last_alert_time (app t) = now) /\
  app t' = app t /\
  (after_queue u = after_queue t' /\ last_alert_time (app u) = now).
Proof.
  intros Hobs Hcd Hc1 Hc2 s1 t t' u.
  assert (Hs1 : s1 = _) by (apply gates_admitted; eassumption).
  assert (Hl1 : last_alert_time (app s1) = now) by (now rewrite Hs1).
  assert (Hcs1 : alert_cooldown_seconds (app s1) =
                 alert_cooldown_seconds (app s)) by (now rewrite Hs1).
  assert (Ht : after_queue t = after_queue s1 /\ last_alert_time (app t) = now).
  { apply no_admission_below; [now rewrite Hcs1 | exact Hl1]. }
  assert (Hcst : alert_cooldown_seconds (app t) =
                 alert_cooldown_seconds (app s)).
  { unfold t. destruct (update_frame_settings rds1 s1) as (_ & _ & -> & _).
    exact Hcs1. }
  assert (Ht' : app t' = app t) by apply save_violation_keeps_app.
  assert (Hu : after_queue u = after_queue t' /\ last_alert_time (app u) = now).
  { apply no_admission_below; rewrite Ht'; [now rewrite Hcst | tauto]. }
  repeat split; try (rewrite Hs1; reflexivity); tauto.
Qed.

End HostFacts.

(** ** The start and stop transitions *)

(** C6, as the code has it.  A start takes a stopped pipeline to running
    only when the model is loaded (and the camera opens); then one capture
    loop is started and [detect_streak] is 0, while [last_alert_time]
    keeps its value.  When the model is not loaded the start only shows
    one of the two "not ready" messages: no field of the application, no
    file, no row and no callback changes, and no loop is started. *)
Theorem start_needs_ready_detector (camera_opens : bool) (s : Sys) :
  let s' := start_monitoring camera_opens s in
  (monitoring (app s) = false -> monitoring (app s') = true ->
   is_Some (model (app s)) /\ camera_opens = true /\
   detect_streak (app s') = 0 /\
   last_alert_time (app s') = last_alert_time (app s) /\
   loops_started s' = S (loops_started s)) /\
  (model (app s) = None ->
   app s' = app s /\ files s' = files s /\ db s' = db s /\
   after_queue s' = after_queue s /\
   loops_started s' = loops_started s /\
   exists m, host s' = host s ++ [ShowMsg m] /\ detector_not_ready m = true).
Proof.
  intros s'. unfold s', start_monitoring, loops_started. split.
  - intros Hstopped. destruct (model (app s)) as [m|] eqn:Hmodel.
    + rewrite Hstopped. cbn [negb isOpened].
      destruct camera_opens; cbn.
      * intros _. repeat split; eauto.
        rewrite !List.filter_app, !length_app. cbn. lia.
      * discriminate.
    + destruct (model_loading (app s)); cbn; rewrite Hstopped; discriminate.
  - intros ->. destruct (model_loading (app s)); cbn;
      rewrite List.filter_app, length_app; cbn;
      (repeat split; [lia | eexists; split; reflexivity]).
Qed.

(** C7: [stop_monitoring] leaves the pipeline stopped with
    [detect_streak] 0 and no capture, having released the capture it
    held; [last_alert_time] and the cooldown setting are untouched, and a
    start that follows does not touch them either, so the cooldown test
    answers after stop and restart as it did before. *)
Theorem stop_keeps_cooldown (s : Sys) (camera_opens : bool) (now : Z) :
  let s' := stop_monitoring s in
  let s'' := start_monitoring camera_opens s' in
  monitoring (app s') = false /\
  detect_streak (app s') = 0 /\
  cap (app s') = None /\
  (forall c, cap (app s) = Some c -> Release c ∈ host s') /\
  last_alert_time (app s') = last_alert_time (app s) /\
  last_alert_time (app s'') = last_alert_time (app s) /\
  cooldown_over now (app s'') = cooldown_over now (app s).
Proof.
  intros s' s''.
  assert (Hstop :
    monitoring (app s') = false /\ detect_streak (app s') = 0 /\
    cap (app s') = None /\
    (forall c, cap (app s) = Some c -> Release c ∈ host s') /\
    last_alert_time (app s') = last_alert_time (app s) /\
    alert_cooldown_seconds (app s') = alert_cooldown_seconds (app s)).
  { unfold s', stop_monitoring. cbn.
    destruct (cap (app s)) as [c|] eqn:Hcap; cbn;
      destruct (model (app s)); cbn;
      (split; [reflexivity|]); (split; [reflexivity|]);
      (split; [first [reflexivity|exact Hcap]|]);
      (split; [|split; reflexivity]);
      intros c' Hc'; try rewrite Hcap in Hc'; try discriminate;
      injection Hc' as <-;
      apply elem_of_app; left; apply elem_of_app; right;
      apply list_elem_of_singleton; reflexivity. }
  destruct Hstop as (Hm & Hs & Hc & Hr & Hl & Hcs).
  assert (Hstart :
    last_alert_time (app s'') = last_alert_time (app s') /\
    alert_cooldown_seconds (app s'') = alert_cooldown_seconds (app s')).
  { unfold s'', start_monitoring.
    destruct (model (app s')); [|destruct (model_loading (app s')); auto].
    destruct (negb (monitoring (app s'))); auto.
    destruct camera_opens; cbn; auto. }
  destruct Hstart as [Hl' Hcs'].
  repeat split; auto; try congruence.
  unfold cooldown_over. congruence.
Qed.

(** C8: on a pipeline that is already monitoring, [start_monitoring]
    changes no field of the application, no file, no row and no callback,
    and starts no capture loop; with the model loaded it changes nothing
    at all, so repeating it changes nothing either. *)
Theorem start_while_running_is_noop (camera_opens : bool) (s : Sys) :
  monitoring (app s) = true ->
  let s' := start_monitoring camera_opens s in
  app s' = app s /\ files s' = files s /\ db s' = db s /\
  after_queue s' = after_queue s /\
  loops_started s' = loops_started s /\
  (is_Some (model (app s)) ->
   s' = s /\ start_monitoring camera_opens s' = s').
Proof.
  intros Hm s'. unfold s', start_monitoring, loops_started.
  destruct (model (app s)) as [m|] eqn:Hmodel.
  - rewrite Hm. cbn. rewrite Hmodel, Hm. cbn. repeat split.
  - destruct (model_loading (app s)); cbn;
      rewrite List.filter_app, length_app; cbn;
      (split; [reflexivity|]); (split; [reflexivity|]);
      (split; [reflexivity|]); (split; [reflexivity|]);
      (split; [lia | intros [x Hx]; discriminate]).
Qed.

(** ** More about the capture loop *)

Lemma scan_boxes_true bs : scan_boxes bs true = true.
Proof. induction bs as [|b bs IH]; cbn; [|destruct (box_cls b =? 67)]; auto. Qed.

Lemma scan_boxes_false bs :
  scan_boxes bs false = existsb (fun b => box_cls b =? 67) bs.
Proof.
  induction bs as [|b bs IH]; cbn; [|destruct (box_cls b =? 67)]; auto.
Qed.

Lemma scan_results_false results :
  scan_results results false = phone_detected results.
Proof.
  induction results as [|r rest IH]; cbn; [reflexivity|].
  unfold has_phone. destruct (boxes r) as [bs|]; cbn.
  - rewrite scan_boxes_false.
    destruct (existsb _ bs); cbn; [reflexivity | exact IH].
  - exact IH.
Qed.

(** X1: the two nested loops with their [break]s (lines 263-271), started
    with the flag off, end with the flag on exactly when some result has
    a list of boxes holding a box of class 67; results whose [boxes] is
    [None] and boxes of other classes never matter, wherever they
    stand. *)
Theorem scan_finds_class_67 (results : list Result) :
  scan_results results false = phone_detected results /\
  (phone_detected results = true <->
   exists r bs b,
     r ∈ results /\ boxes r = Some bs /\ b ∈ bs /\ box_cls b = 67).
Proof.
  split; [apply scan_results_false|].
  unfold phone_detected. rewrite existsb_exists. split.
  - intros (r & Hr & Hp). unfold has_phone in Hp.
    destruct (boxes r) as [bs|] eqn:Hb; [|discriminate].
    apply existsb_exists in Hp as (b & Hbin & Hcls).
    exists r, bs, b. repeat split; auto.
    + now apply list_elem_of_In.
    + now apply list_elem_of_In.
    + now apply Z.eqb_eq.
  - intros (r & bs & b & Hr & Hb & Hbin & Hcls).
    exists r. split; [now apply list_elem_of_In|].
    unfold has_phone. rewrite Hb. apply existsb_exists.
    exists b. split; [now apply list_elem_of_In | now apply Z.eqb_eq].
Qed.

(** When the streak is reached after the passes [rds], the history that
    ends with the current detection ends with [required_streak]
    detections. *)
Lemma reached_means_recent rds s hit :
  monitoring (app s) = true ->
  detect_streak (app s) = 0 ->
  1 <= required_streak (app s) ->
  observe hit (app (update_frame rds s)) = true ->
  recent_all_true (Z.to_nat (required_streak (app s))) (hits rds ++ [hit])
    = true.
Proof.
  intros Hm H0 Hreq Hobs.
  destruct (update_frame_settings rds s) as (_ & Hr1 & _).
  destruct (streak_is_recent_run rds s Hm H0) as (Hge & pre & Hpre).
  unfold observe, streak_reached, streak_after in Hobs. cbn in Hobs.
  rewrite Hr1 in Hobs. destruct hit; [|lia].
  rewrite Hpre, <- app_assoc, <- replicate_S_end.
  apply recent_all_true_intro. lia.
Qed.

Lemma take_hits_prefix (hs extra : list bool) (n : nat) :
  (forall k, recent_all_true n (take k (hs ++ extra)) = false) ->
  forall k, recent_all_true n (take k hs) = false.
Proof.
  intros H k. destruct (decide (k <= length hs)%nat) as [Hle|Hgt].
  - rewrite <- (take_app_le hs extra k Hle). apply H.
  - rewrite take_ge by lia.
    rewrite <- (take_app_length hs extra). apply H.
Qed.

(** X2: from a running pipeline whose counter is 0, with
    [required_streak >= 1], a run of the loop whose frames never show
    [required_streak] detections in a row schedules no violation and
    leaves [last_alert_time] alone, whatever the clock says. *)
Theorem no_streak_no_violation (s : Sys) (rds : list Reading) :
  monitoring (app s) = true ->
  detect_streak (app s) = 0 ->
  1 <= required_streak (app s) ->
  (forall k,
     recent_all_true (Z.to_nat (required_streak (app s)))
       (take k (hits rds)) = false) ->
  after_queue (update_frame rds s) = after_queue s /\
  last_alert_time (app (update_frame rds s)) = last_alert_time (app s).
Proof.
  intros Hm H0 Hreq.
  induction rds as [|rd rds IH] using rev_ind; intros Hruns; [now cbn|].
  rewrite hits_app in Hruns.
  destruct (IH (take_hits_prefix _ _ _ Hruns)) as [Hq Hl].
  rewrite update_frame_snoc by exact Hm.
  destruct (update_frame_settings rds s) as (Hm1 & _). rewrite Hm in Hm1.
  destruct rd as [| |f r c|f r c]; cbn [frame_iteration]; auto.
  - rewrite Hm1. cbn [negb].
    destruct (observe (phone_detected r) (app (update_frame rds s))) eqn:Hobs.
    + pose proof (reached_means_recent rds s _ Hm H0 Hreq Hobs) as Hrec.
      specialize (Hruns (length (hits rds ++ [phone_detected r]))).
      rewrite hits_captured, firstn_all in Hruns. congruence.
    + rewrite gates_quiet by exact Hobs. cbn. auto.
  - rewrite Hm1. cbn [negb].
    destruct (observe (phone_detected r) (app (update_frame rds s))) eqn:Hobs.
    + pose proof (reached_means_recent rds s _ Hm H0 Hreq Hobs) as Hrec.
      specialize (Hruns (length (hits rds ++ [phone_detected r]))).
      rewrite hits_unscheduled, firstn_all in Hruns. congruence.
    + destruct (gates_unscheduled_cases (phone_detected r) c
                  (update_frame rds s)) as [[_ ->]|(Hobs' & _)];
        [cbn; auto | congruence].
Qed.

(** A pass either schedules nothing, or schedules the save of its own
    frame and is a captured frame whose clock becomes
    [last_alert_time]. *)
Lemma frame_iteration_queue rd s :
  monitoring (app s) = true ->
  after_queue (frame_iteration rd s) = after_queue s \/
  (exists f r c,
     rd = Captured f r c /\
     after_queue (frame_iteration rd s) =
       after_queue s ++ [CbSaveViolation f] /\
     last_alert_time (app (frame_iteration rd s)) = c).
Proof.
  intros Hm. destruct rd as [| |f r c|f r c]; cbn; auto; rewrite Hm; cbn.
  - destruct (gates_cases (phone_detected r) c f s)
      as [[_ ->]|[(_ & _ & ->)|(_ & _ & ->)]]; cbn; auto.
    right. exists f, r, c. auto.
  - destruct (gates_unscheduled_cases (phone_detected r) c s)
      as [[_ ->]|(_ & _ & ->)]; cbn; auto.
Qed.

(** X3: over passes whose clock readings all lie in one window
    [[lo, lo + alert_cooldown_seconds)], the loop schedules at most one
    violation. *)
Theorem one_violation_per_window (lo : Z) (rds : list Reading) (s : Sys) :
  clocks_within lo (lo + alert_cooldown_seconds (app s)) rds ->
  (length (after_queue (update_frame rds s)) <= S (length (after_queue s)))%nat.
Proof.
  revert s. induction rds as [|rd rds IH]; intros s Hcl; cbn; [lia|].
  destruct (monitoring (app s)) eqn:Hm; [|lia].
  apply Forall_cons in Hcl as [Hrd Hcl].
  destruct (frame_iteration_settings rd s) as (_ & _ & Hcs & _).
  destruct (frame_iteration_queue rd s Hm)
    as [Hq|(f & r & c & -> & Hq & Hl)].
  - rewrite <- Hq. apply IH. now rewrite Hcs.
  - destruct (no_admission_below c rds (frame_iteration (Captured f r c) s))
      as [Hq' _]; [|exact Hl|].
    + rewrite Hcs. eapply Forall_impl; [exact Hcl|].
      intros [| |f' r' c'|f' r' c']; cbn; auto; lia.
    + rewrite Hq', Hq, length_app. cbn. lia.
Qed.

Lemma frames_of_app rds1 rds2 :
  frames_of (rds1 ++ rds2) = frames_of rds1 ++ frames_of rds2.
Proof. apply omap_app. Qed.

(** X4: a run of the capture loop writes no file, no row and no line of
    the log box, and changes neither the model, the capture, the action
    mode nor the two settings; all it leaves for the main loop are
    [save_violation] callbacks, appended in order, each for a frame the
    run captured. *)
Theorem capture_loop_only_schedules (rds : list Reading) (s : Sys) :
  files (update_frame rds s) = files s /\
  db (update_frame rds s) = db s /\
  log_box (update_frame rds s) = log_box s /\
  model (app (update_frame rds s)) = model (app s) /\
  cap (app (update_frame rds s)) = cap (app s) /\
  action_mode (app (update_frame rds s)) = action_mode (app s) /\
  required_streak (app (update_frame rds s)) = required_streak (app s) /\
  alert_cooldown_seconds (app (update_frame rds s)) =
    alert_cooldown_seconds (app s) /\
  exists saved,
    after_queue (update_frame rds s) =
      after_queue s ++ (CbSaveViolation <$> saved) /\
    saved ⊆ frames_of rds.
Proof.
  revert s. induction rds as [|rd rds IH]; intros s.
  - cbn. repeat split. exists []. split; [now rewrite app_nil_r|].
    apply list_subseteq_nil.
  - cbn [update_frame]. destruct (monitoring (app s)) eqn:Hm.
    + destruct (IH (frame_iteration rd s))
        as (-> & -> & -> & -> & -> & -> & -> & -> & saved & -> & Hsub).
      assert (Hstep :
        files (frame_iteration rd s) = files s /\
        db (frame_iteration rd s) = db s /\
        log_box (frame_iteration rd s) = log_box s /\
        model (app (frame_iteration rd s)) = model (app s) /\
        cap (app (frame_iteration rd s)) = cap (app s) /\
        action_mode (app (frame_iteration rd s)) = action_mode (app s) /\
        required_streak (app (frame_iteration rd s)) =
          required_streak (app s) /\
        alert_cooldown_seconds (app (frame_iteration rd s)) =
          alert_cooldown_seconds (app s)).
      { destruct rd as [| |f r c|f r c]; cbn;
          try (repeat split; reflexivity); rewrite Hm; cbn.
        - destruct (gates_cases (phone_detected r) c f s)
            as [[_ ->]|[(_ & _ & ->)|(_ & _ & ->)]]; cbn;
            repeat split; reflexivity.
        - destruct (gates_unscheduled_cases (phone_detected r) c s)
            as [[_ ->]|(_ & _ & ->)]; cbn; repeat split; reflexivity. }
      destruct Hstep as (-> & -> & -> & -> & -> & -> & -> & ->).
      repeat split.
      destruct (frame_iteration_queue rd s Hm)
        as [->|(f & r & c & -> & -> & _)].
      * exists saved. split; [reflexivity|].
        change (rd :: rds) with ([rd] ++ rds). rewrite frames_of_app.
        intros x Hx. apply elem_of_app. right. now apply Hsub.
      * exists (f :: saved). split; [now rewrite <- app_assoc|].
        intros x Hx. cbn. apply elem_of_cons in Hx as [->|Hx].
        -- apply list_elem_of_here.
        -- apply list_elem_of_further. now apply Hsub.
    + repeat split. exists []. split; [now rewrite app_nil_r|].
      apply list_subseteq_nil.
Qed.

(** X21: a pass on which the streak is reached and the cooldown is
    over, but in which line 282 raises, queues no [save_violation] and
    writes nothing, yet line 281 has already set [last_alert_time] to the
    clock of the pass; the counter keeps its updated value and the
    [except] branch prints.  While the clock stays below that reading
    plus the cooldown, the loop schedules no violation: the cooldown is
    spent on a violation that was never recorded. *)
Theorem unscheduled_pass_spends_cooldown (f : Frame) (r : list Result)
    (now : Z) (s : Sys) (rds : list Reading) :
  monitoring (app s) = true ->
  observe (phone_detected r) (app s) = true ->
  cooldown_over now (app s) = true ->
  clocks_below (now + alert_cooldown_seconds (app s)) rds ->
  let s1 := frame_iteration (Unscheduled f r now) s in
  after_queue s1 = after_queue s /\
  files s1 = files s /\
  db s1 = db s /\
  host s1 = host s ++ [Print] /\
  last_alert_time (app s1) = now /\
  detect_streak (app s1) = streak_after (phone_detected r) (app s) /\
  after_queue (update_frame rds s1) = after_queue s /\
  last_alert_time (app (update_frame rds s1)) = now.
Proof.
  intros Hm Hobs Hcd Hcl s1.
  assert (Hs1 : s1 =
    emit Print
      (with_app (set_last_alert_time now)
         (with_app (set_detect_streak (streak_after (phone_detected r) (app s)))
            s))).
  { unfold s1. cbn. rewrite Hm. cbn.
    destruct (gates_unscheduled_cases (phone_detected r) now s)
      as [[[Hno|Hno] _]|(_ & _ & ->)]; [congruence | congruence | reflexivity]. }
  destruct (no_admission_below now rds s1) as [Hq Hl].
  - rewrite Hs1. exact Hcl.
  - rewrite Hs1. reflexivity.
  - rewrite Hq, Hl, Hs1. cbn. repeat split.
Qed.

(** ** More about the store *)

Lemma ascending_below_weaken (b b' : Z) (rs : list Row) :
  b <= b' -> ascending_below b rs -> ascending_below b' rs.
Proof.
  intros Hle. induction rs as [|r rs IH]; cbn; [auto|].
  intros (Hr & Hall & Hrest). repeat split; auto. lia.
Qed.

Lemma ascending_below_bound (b : Z) (rs : list Row) (x : Row) :
  ascending_below b rs -> x ∈ rs -> row_id x <= b.
Proof.
  induction rs as [|r rs IH]; cbn; intros Hasc Hx.
  - now apply elem_of_nil in Hx.
  - destruct Hasc as (Hr & _ & Hrest).
    apply elem_of_cons in Hx as [->|Hx]; auto.
Qed.

Lemma ascending_below_snoc (b : Z) (rs : list Row) (r : Row) :
  ascending_below b rs ->
  Forall (fun x => row_id x < row_id r) rs ->
  ascending_below (row_id r) (rs ++ [r]).
Proof.
  induction rs as [|x rs IH]; cbn; intros Hasc Hall.
  - repeat split; auto. lia.
  - destruct Hasc as (Hx & Hlt & Hrest).
    apply Forall_cons in Hall as [Hxr Hall].
    repeat split; [lia | | now apply IH].
    apply Forall_app. split; [exact Hlt|]. now constructor.
Qed.

Lemma insert_row_ok ts emp obj img (t : Table) :
  table_ok t -> table_ok (insert_row ts emp obj img t).
Proof.
  intros Hok. unfold table_ok, insert_row. cbn.
  apply (ascending_below_snoc (seq t) (rows t) (new_row t ts emp obj img) Hok).
  apply new_row_id_fresh.
Qed.

Lemma apply_op_ok (t : Table) (op : TableOp) :
  table_ok t -> table_ok (apply_op t op).
Proof.
  destruct op; cbn; [apply insert_row_ok | intros _; exact I].
Qed.

Lemma apply_op_seq (t : Table) (op : TableOp) : seq t <= seq (apply_op t op).
Proof. destruct op; cbn; unfold next_rowid; lia. Qed.

Lemma apply_ops_seq (ops : list TableOp) : forall t,
  seq t <= seq (apply_ops ops t).
Proof.
  induction ops as [|op ops IH]; intros t; cbn; [lia|].
  pose proof (apply_op_seq t op). pose proof (IH (apply_op t op)).
  unfold apply_ops in *. lia.
Qed.

Lemma apply_ops_ok (ops : list TableOp) : forall t,
  table_ok t -> table_ok (apply_ops ops t).
Proof.
  induction ops as [|op ops IH]; intros t Hok; cbn; [exact Hok|].
  apply IH. now apply apply_op_ok.
Qed.

Lemma ascending_NoDup (b : Z) (rs : list Row) :
  ascending_below b rs -> NoDup (row_id <$> rs).
Proof.
  induction rs as [|r rs IH]; cbn; intros Hasc; [constructor|].
  destruct Hasc as (_ & Hlt & Hrest). constructor; [|now apply IH].
  intros Hin. apply list_elem_of_fmap in Hin as (x & Hid & Hx).
  rewrite Forall_forall in Hlt. specialize (Hlt x Hx). lia.
Qed.

(** X5: a table whose ids grow along its rows and stay at or below the
    AUTOINCREMENT counter keeps that shape under any inserts and
    deletions of all rows; in such a table no two rows share an id.  The
    table [CREATE TABLE] makes has that shape. *)
Theorem store_ids_ascending (ops : list TableOp) (t : Table) :
  table_ok t ->
  table_ok (apply_ops ops t) /\
  NoDup (row_id <$> rows (apply_ops ops t)).
Proof.
  intros Hok. pose proof (apply_ops_ok ops t Hok) as Hok'.
  split; [exact Hok'|]. exact (ascending_NoDup _ _ Hok').
Qed.

(** X6: ids are never handed out twice.  Whatever inserts and deletions
    follow, also after [DELETE FROM violations] has emptied the table, the
    next inserted row gets an id above the id of every row the table
    holds now. *)
Theorem ids_never_reused (t : Table) (ops : list TableOp)
    (ts emp obj img : string) (x : Row) :
  table_ok t ->
  x ∈ rows t ->
  row_id x < row_id (new_row (apply_ops ops t) ts emp obj img).
Proof.
  intros Hok Hx. cbn. unfold next_rowid.
  pose proof (ascending_below_bound _ _ _ Hok Hx).
  pose proof (apply_ops_seq ops t). lia.
Qed.

Lemma insert_desc_bottom (r : Row) (l : list Row) :
  Forall (fun x => row_id r < row_id x) l -> insert_desc r l = l ++ [r].
Proof.
  induction 1 as [|x l Hx _ IH]; cbn; [reflexivity|].
  destruct (row_id x <=? row_id r) eqn:E; [apply Z.leb_le in E; lia|].
  now rewrite IH.
Qed.

Lemma order_by_id_desc_reverse (b : Z) (rs : list Row) :
  ascending_below b rs -> order_by_id_desc rs = reverse rs.
Proof.
  induction rs as [|r rs IH]; intros Hasc; [reflexivity|].
  destruct Hasc as (_ & Hlt & Hrest).
  change (order_by_id_desc (r :: rs))
    with (insert_desc r (order_by_id_desc rs)).
  rewrite IH by exact Hrest.
  rewrite reverse_cons. apply insert_desc_bottom.
  rewrite Forall_forall in Hlt.
  apply Forall_forall. intros x Hx. apply Hlt.
  revert Hx. apply elem_of_reverse.
Qed.

(** X7: on a table of that shape, the query of [refresh_logs] yields the
    rows in the reverse of the order they were inserted, cut after ten:
    the log box shows the ten latest violations, latest first, and never
    more than ten lines; when the query raises, the box is left empty. *)
Theorem log_box_shows_latest_ten (s : Sys) :
  table_ok (view (db s)) ->
  log_box (refresh_logs true s) =
    log_line <$> take 10 (reverse (rows (view (db s)))) /\
  (length (log_box (refresh_logs true s)) <= 10)%nat /\
  length (log_box (refresh_logs true s)) =
    Nat.min 10 (length (rows (view (db s)))) /\
  log_box (refresh_logs false s) = [].
Proof.
  intros Hok. cbn. unfold recent_violations.
  rewrite (order_by_id_desc_reverse _ _ Hok).
  rewrite length_fmap, length_take, length_reverse.
  repeat split; lia.
Qed.

(** X8: [clear_all_violations] never touches a file or a field of the
    application.  Declined, it changes nothing.  Confirmed, with the
    delete and the commit going through, it leaves the committed table
    without rows but with its AUTOINCREMENT counter, no open transaction
    and an empty log box, and announces the clearing; when the delete
    raises nothing has changed, and when the commit raises the committed
    table still has its rows. *)
Theorem clear_all_violations_effect
    (confirmed delete_ok commit_ok query_ok : bool) (s : Sys) :
  let out := clear_all_violations confirmed delete_ok commit_ok query_ok s in
  files (snd out) = files s /\
  app (snd out) = app s /\
  (confirmed = false -> out = (Returned false, s)) /\
  (confirmed = true -> delete_ok = true -> commit_ok = true ->
   fst out = Returned true /\
   rows (committed (db (snd out))) = [] /\
   seq (committed (db (snd out))) = seq (view (db s)) /\
   txn (db (snd out)) = None /\
   log_box (snd out) = []) /\
  (confirmed = true -> delete_ok = false ->
   out = (Raised Sqlite3Error, s)) /\
  (confirmed = true -> delete_ok = true -> commit_ok = false ->
   fst out = Raised Sqlite3Error /\
   committed (db (snd out)) = committed (db s) /\
   log_box (snd out) = log_box s).
Proof.
  intros out. unfold out, clear_all_violations, cursor_execute_delete.
  destruct confirmed, delete_ok, commit_ok, query_ok; run_act;
    repeat split; intros; try discriminate; repeat split; reflexivity.
Qed.

(** ** More about [save_violation] *)

Section HostEdges.

Variable strftime : string -> DateTime -> string.
Variable os_path_join : string -> string -> string.
Variable ALERTS_DIR : string.

Local Abbreviation img_name := (img_name strftime os_path_join ALERTS_DIR).
Local Abbreviation timestamp_str := (timestamp_str strftime).
Local Abbreviation save_violation :=
  (save_violation strftime os_path_join ALERTS_DIR).

(** The state in which the dispatch runs when the image is there and
    both database calls go through. *)
Lemma save_violation_recorded (env : SaveEnv) (frame : Frame) (s s0 : Sys) :
  cv2_imwrite (env_imwrite env) (img_name (env_now env)) frame s =
    (Returned tt, s0) ->
  is_Some (files s0 !! img_name (env_now env)) ->
  env_insert_ok env = true ->
  env_commit_ok env = true ->
  let s1 :=
    after CbRefreshLogs
      (with_db (fun _ =>
         mkConn (insert_row (timestamp_str (env_now env)) (employee_id env)
                   "Mobile Phone" (img_name (env_now env)) (view (db s0)))
           None) s0) in
  save_violation env frame s = dispatch env s1 /\
  db (snd (save_violation env frame s)) = db s1 /\
  files (snd (save_violation env frame s)) = files s0.
Proof.
  intros Hw Hex Hi Hc s1.
  assert (Hsv : save_violation env frame s = dispatch env s1).
  { rewrite (save_violation_unfold strftime os_path_join ALERTS_DIR), Hw.
    rewrite bool_decide_eq_true_2 by exact Hex.
    now rewrite persist_returns by assumption. }
  rewrite Hsv. destruct (dispatch_keeps_store env s1) as (-> & -> & _).
  repeat split.
Qed.

(** X9: when the image is written but the insert raises, the method
    raises with the image left on disk and no row for it: the connection
    is as it was, no refresh and no warning is scheduled, and the
    workstation is not locked. *)
Theorem orphan_image_when_insert_fails (env : SaveEnv) (frame : Frame)
    (s : Sys) :
  env_imwrite env = Written ->
  env_insert_ok env = false ->
  let out := save_violation env frame s in
  fst out = Raised Sqlite3Error /\
  files (snd out) !! img_name (env_now env) = Some frame /\
  db (snd out) = db s /\
  after_queue (snd out) = after_queue s /\
  host (snd out) = host s.
Proof.
  intros Hw Hi out. unfold out.
  rewrite (save_violation_unfold strftime os_path_join ALERTS_DIR), Hw. cbn.
  rewrite lookup_insert_eq.
  rewrite bool_decide_eq_true_2 by (now exists frame).
  unfold persist. run_act. rewrite Hi. cbn.
  repeat split. apply lookup_insert_eq.
Qed.

(** X10: the insert is decided by the file being there after the write
    attempt, not by the write.  When [cv2.imwrite] writes nothing but a
    file already sits at the path, a row is still inserted and committed
    with that path, and the file keeps its old content. *)
Theorem stale_image_still_recorded (env : SaveEnv) (frame old : Frame)
    (s : Sys) :
  env_imwrite env = NotWritten ->
  files s !! img_name (env_now env) = Some old ->
  env_insert_ok env = true ->
  env_commit_ok env = true ->
  let s' := snd (save_violation env frame s) in
  let r := new_row (view (db s)) (timestamp_str (env_now env))
             (employee_id env) "Mobile Phone" (img_name (env_now env)) in
  rows (committed (db s')) = rows (view (db s)) ++ [r] /\
  files s' = files s /\
  files s' !! image_path r = Some old.
Proof.
  intros Hw Hold Hi Hc s' r.
  assert (Hcv : cv2_imwrite (env_imwrite env) (img_name (env_now env)) frame s
                = (Returned tt, s)) by (now rewrite Hw).
  assert (Hex : is_Some (files s !! img_name (env_now env)))
    by (rewrite Hold; now eexists).
  destruct (save_violation_recorded env frame s s Hcv Hex Hi Hc)
    as (_ & Hdb & Hfiles).
  fold s' in Hdb, Hfiles. rewrite Hdb, Hfiles. cbn. auto.
Qed.

(** X11: when the insert goes through and the commit raises, the method
    raises before any refresh or dispatch; the committed table is as it
    was and the new row sits in the open transaction of the shared
    connection.  The next [save_violation] whose commit goes through
    commits that row together with its own. *)
Theorem pending_row_when_commit_fails (env env2 : SaveEnv)
    (frame frame2 : Frame) (s : Sys) :
  env_imwrite env = Written ->
  env_insert_ok env = true ->
  env_commit_ok env = false ->
  env_imwrite env2 = Written ->
  env_insert_ok env2 = true ->
  env_commit_ok env2 = true ->
  let out := save_violation env frame s in
  let r := new_row (view (db s)) (timestamp_str (env_now env))
             (employee_id env) "Mobile Phone" (img_name (env_now env)) in
  let r2 := new_row (view (db (snd out))) (timestamp_str (env_now env2))
              (employee_id env2) "Mobile Phone" (img_name (env_now env2)) in
  fst out = Raised Sqlite3Error /\
  committed (db (snd out)) = committed (db s) /\
  rows (view (db (snd out))) = rows (view (db s)) ++ [r] /\
  after_queue (snd out) = after_queue s /\
  host (snd out) = host s /\
  rows (committed (db (snd (save_violation env2 frame2 (snd out))))) =
    rows (view (db s)) ++ [r; r2].
Proof.
  intros Hw Hi Hc Hw2 Hi2 Hc2 out r r2.
  assert (Hout : out =
    (Raised Sqlite3Error,
     with_db (fun c =>
       mkConn (committed c)
         (Some (insert_row (timestamp_str (env_now env)) (employee_id env)
                  "Mobile Phone" (img_name (env_now env)) (view c))))
       (with_files (fun fs => <[img_name (env_now env) := frame]> fs) s))).
  { unfold out.
    rewrite (save_violation_unfold strftime os_path_join ALERTS_DIR), Hw. cbn.
    rewrite lookup_insert_eq.
    rewrite bool_decide_eq_true_2 by (now exists frame).
    unfold persist. run_act. rewrite Hi, Hc. reflexivity. }
  assert (Hview : rows (view (db (snd out))) = rows (view (db s)) ++ [r])
    by (rewrite Hout; reflexivity).
  assert (Hcv : cv2_imwrite (env_imwrite env2) (img_name (env_now env2))
                  frame2 (snd out) =
    (Returned tt,
     with_files (fun fs => <[img_name (env_now env2) := frame2]> fs)
       (snd out))) by (now rewrite Hw2).
  assert (Hex : is_Some
    (files (with_files (fun fs => <[img_name (env_now env2) := frame2]> fs)
              (snd out)) !! img_name (env_now env2))).
  { cbn. rewrite lookup_insert_eq. now eexists. }
  destruct (save_violation_recorded env2 frame2 (snd out) _ Hcv Hex Hi2 Hc2)
    as (_ & Hdb & _).
  rewrite Hdb. cbn. fold r2. rewrite Hview, <- app_assoc.
  rewrite Hout. repeat split.
Qed.

Lemma dashboard_row_plain (login : option string) (fs : gmap string Frame)
    (row : Row) :
  object_detected row = "Mobile Phone" ->
  dashboard_row login fs row =
    mkDashRow (row_timestamp row) (employee_name row) "Mobile Phone"
      (image_path row) (file_exists fs (image_path row)).
Proof. intros H. unfold dashboard_row. rewrite H. reflexivity. Qed.

(** X12: a violation recorded by [save_violation] (image written, insert
    and commit through) is the first line of the manager dashboard opened
    next: it is shown with its own timestamp, employee, "Mobile Phone"
    and image path, none of them shifted by the repair of old rows, and
    with the status "Photo Saved"; the total count is one higher, and the
    table never has more than 50 lines. *)
Theorem recorded_row_on_dashboard (env : SaveEnv) (frame : Frame) (s : Sys)
    (login : option string) :
  env_imwrite env = Written ->
  env_insert_ok env = true ->
  env_commit_ok env = true ->
  let s' := snd (save_violation env frame s) in
  head (dashboard_table login s') =
    Some (mkDashRow (timestamp_str (env_now env)) (employee_id env)
            "Mobile Phone" (img_name (env_now env)) true) /\
  total_violations (db s') = S (total_violations (db s)) /\
  (length (dashboard_table login s') <= 50)%nat.
Proof.
  intros Hw Hi Hc s'.
  assert (Hcv : cv2_imwrite (env_imwrite env) (img_name (env_now env)) frame s
    = (Returned tt,
       with_files (fun fs => <[img_name (env_now env) := frame]> fs) s))
    by (now rewrite Hw).
  assert (Hex : is_Some
    (files (with_files (fun fs => <[img_name (env_now env) := frame]> fs) s)
       !! img_name (env_now env))).
  { cbn. rewrite lookup_insert_eq. now eexists. }
  destruct (save_violation_recorded env frame s _ Hcv Hex Hi Hc)
    as (_ & Hdb & Hfiles).
  fold s' in Hdb, Hfiles. unfold dashboard_table, total_violations.
  rewrite Hdb, Hfiles. cbn [db view committed txn default rows insert_row
    after with_db with_files files].
  split; [|split].
  - rewrite order_by_id_desc_snoc by apply new_row_id_fresh.
    cbn [take fmap list_fmap head].
    rewrite dashboard_row_plain by reflexivity. cbn.
    unfold file_exists. rewrite lookup_insert_eq.
    rewrite bool_decide_eq_true_2 by (now eexists). reflexivity.
  - rewrite length_app. cbn. lia.
  - rewrite length_fmap, length_take. lia.
Qed.

End HostEdges.

(** ** Stopping, part by part *)

Lemma stop_keeps_cooldown_parts (s : Sys) :
  monitoring (app (stop_monitoring s)) = false /\
  detect_streak (app (stop_monitoring s)) = 0 /\
  cap (app (stop_monitoring s)) = None /\
  (forall c, cap (app s) = Some c -> Release c ∈ host (stop_monitoring s)) /\
  last_alert_time (app (stop_monitoring s)) = last_alert_time (app s) /\
  db (stop_monitoring s) = db s /\
  files (stop_monitoring s) = files s.
Proof.
  unfold stop_monitoring. cbn.
  destruct (cap (app s)) as [c|] eqn:Hcap; cbn;
    destruct (model (app s)); cbn;
    (split; [reflexivity|]); (split; [reflexivity|]);
    (split; [first [reflexivity|exact Hcap]|]);
    (split; [|repeat split; reflexivity]);
    intros c' Hc'; try rewrite Hcap in Hc'; try discriminate;
    injection Hc' as <-;
    apply elem_of_app; left; apply elem_of_app; right;
    apply list_elem_of_singleton; reflexivity.
Qed.

(** ** The photo windows *)

(** A first successful open of a photo that is on disk. *)
Lemma open_new_photo (p : string) (d : Desk) :
  p <> "" -> is_Some (files (sys d) !! p) ->
  open_photo_windows d !! p = None ->
  String.eqb p "" || negb (file_exists (files (sys d)) p) = false /\
  open_violation_photo true p d =
    with_windows (fun m => <[p := next_window d]> m) (new_toplevel d).
Proof.
  intros Hne Hex Hnew.
  assert (Hguard : String.eqb p "" || negb (file_exists (files (sys d)) p)
                   = false).
  { unfold file_exists. rewrite bool_decide_eq_true_2 by exact Hex.
    apply String.eqb_neq in Hne. now rewrite Hne. }
  split; [exact Hguard|].
  unfold open_violation_photo. now rewrite Hguard, Hnew.
Qed.

(** X13: a photo that is not on disk (or an empty path) only brings up
    the "not found" error.  The first [open_violation_photo] of a photo
    on disk makes one new window and records it under the path; opening
    the same path again makes no window and records nothing: it only
    raises the window that is already there. *)
Theorem photo_window_per_path (image_loads : bool) (p : string) (d : Desk) :
  (p = "" \/ files (sys d) !! p = None ->
   open_violation_photo image_loads p d = show ShowPhotoNotFound d) /\
  (p <> "" -> is_Some (files (sys d) !! p) ->
   open_photo_windows d !! p = None ->
   let d1 := open_violation_photo true p d in
   let d2 := open_violation_photo image_loads p d1 in
   open_photo_windows d1 = <[p := next_window d]> (open_photo_windows d) /\
   live d1 = {[next_window d]} ∪ live d /\
   open_photo_windows d2 = open_photo_windows d1 /\
   live d2 = live d1 /\
   next_window d2 = next_window d1 /\
   shown d2 = shown d1 ++ [Lift (next_window d)]).
Proof.
  split.
  - intros Hmiss. unfold open_violation_photo, file_exists.
    destruct Hmiss as [-> | Hnone]; [reflexivity|].
    rewrite Hnone. rewrite bool_decide_eq_false_2 by (intros [x Hx]; discriminate).
    now rewrite orb_true_r.
  - intros Hne Hex Hnew d1 d2.
    destruct (open_new_photo p d Hne Hex Hnew) as [Hguard Hd1]. fold d1 in Hd1.
    assert (Hd2 : d2 = show (Lift (next_window d)) d1).
    { unfold d2, open_violation_photo. rewrite Hd1 at 1 2. cbn [sys with_windows new_toplevel].
      rewrite Hguard. rewrite Hd1. cbn. now rewrite lookup_insert_eq. }
    rewrite Hd2, Hd1. cbn. repeat split.
Qed.

(** X14: opening a photo and closing its window is a round trip: the
    record of open windows and the set of live windows are as before, and
    the close does not raise. *)
Theorem photo_window_round_trip (p : string) (d : Desk) :
  p <> "" -> is_Some (files (sys d) !! p) ->
  open_photo_windows d !! p = None ->
  next_window d ∉ live d ->
  let d1 := open_violation_photo true p d in
  let out := on_window_close p (next_window d) d1 in
  fst out = None /\
  open_photo_windows (snd out) = open_photo_windows d /\
  live (snd out) = live d /\
  sys (snd out) = sys d.
Proof.
  intros Hne Hex Hnew Hfresh d1 out.
  destruct (open_new_photo p d Hne Hex Hnew) as [_ Hd1]. fold d1 in Hd1.
  unfold out, on_window_close. rewrite Hd1. cbn.
  rewrite lookup_insert_eq. cbn. repeat split.
  - now apply delete_insert_id.
  - apply set_eq. intros w. rewrite elem_of_difference, elem_of_union,
      elem_of_singleton. split; [tauto|].
    intros Hw. split; [tauto|]. intros ->. contradiction.
Qed.

(** X15: when the image cannot be loaded, the window that was made for it
    stays alive but is no longer recorded; closing it raises [KeyError]
    before the window is destroyed, so it stays alive. *)
Theorem failed_photo_window_leaks (p : string) (d : Desk) :
  p <> "" -> is_Some (files (sys d) !! p) ->
  open_photo_windows d !! p = None ->
  let d1 := open_violation_photo false p d in
  open_photo_windows d1 = open_photo_windows d /\
  next_window d ∈ live d1 /\
  on_window_close p (next_window d) d1 = (Some KeyError, d1).
Proof.
  intros Hne Hex Hnew d1.
  assert (Hd1 : d1 = with_windows (fun m => delete p m)
                       (with_windows (fun m => <[p := next_window d]> m)
                          (new_toplevel d))).
  { unfold d1, open_violation_photo, file_exists.
    rewrite bool_decide_eq_true_2 by exact Hex.
    apply String.eqb_neq in Hne. rewrite Hne, Hnew. cbn.
    rewrite lookup_insert_eq.
    now rewrite bool_decide_eq_true_2 by (now eexists). }
  assert (Hw : open_photo_windows d1 = open_photo_windows d).
  { rewrite Hd1. cbn. now apply delete_insert_id. }
  split; [exact Hw|]. split.
  - rewrite Hd1. cbn. apply elem_of_union. left.
    now apply elem_of_singleton.
  - unfold on_window_close. now rewrite Hw, Hnew.
Qed.

Lemma destroy_all_windows (d : Desk) (m : gmap string Window) :
  let d' := map_fold (fun _ w acc => destroy w acc) d m in
  sys d' = sys d /\
  shown d' = shown d /\
  forall w, w ∈ live d' <-> w ∈ live d /\ forall p, m !! p <> Some w.
Proof.
  apply (map_fold_weak_ind
    (fun d' m => sys d' = sys d /\ shown d' = shown d /\
       forall w, w ∈ live d' <-> w ∈ live d /\ forall p, m !! p <> Some w)).
  - split; [reflexivity|]. split; [reflexivity|].
    intros w. split; [|tauto].
    intros Hw. split; [exact Hw|].
    intros p. rewrite lookup_empty. discriminate.
  - intros p x m' r Hnone (Hs & Hsh & Hlive).
    split; [exact Hs|]. split; [exact Hsh|].
    intros w. cbn. rewrite elem_of_difference, elem_of_singleton, Hlive.
    split.
    + intros [[Hin Hall] Hx]. split; [exact Hin|].
      intros q Hq. destruct (decide (p = q)) as [->|Hpq].
      * rewrite lookup_insert_eq in Hq. congruence.
      * rewrite lookup_insert_ne in Hq by exact Hpq. now apply (Hall q).
    + intros [Hin Hall]. split; [split; [exact Hin|]|].
      * intros q Hq. apply (Hall q).
        rewrite lookup_insert_ne; [exact Hq|]. intros ->. congruence.
      * intros ->. apply (Hall p). now rewrite lookup_insert_eq.
Qed.

(** X16: [exit_app] destroys every recorded photo window and no other,
    forgets them all, leaves the pipeline stopped with no capture (the
    one it held released), closes the connection and destroys the root
    window; the committed rows, the files and [last_alert_time] are as
    they were, and no transaction is left open. *)
Theorem exit_app_cleans_up (d : Desk) :
  let d' := exit_app d in
  open_photo_windows d' = ∅ /\
  (forall w, w ∈ live d' <->
     w ∈ live d /\ forall p, open_photo_windows d !! p <> Some w) /\
  monitoring (app (sys d')) = false /\
  detect_streak (app (sys d')) = 0 /\
  cap (app (sys d')) = None /\
  (forall c, cap (app (sys d)) = Some c -> Release c ∈ host (sys d')) /\
  committed (db (sys d')) = committed (db (sys d)) /\
  txn (db (sys d')) = None /\
  files (sys d') = files (sys d) /\
  last_alert_time (app (sys d')) = last_alert_time (app (sys d)) /\
  shown d' = shown d ++ [CloseConn; DestroyRoot].
Proof.
  intros d'. unfold d', exit_app.
  destruct (destroy_all_windows d (open_photo_windows d)) as (Hs & Hsh & Hlive).
  set (d1 := map_fold _ d (open_photo_windows d)) in *.
  destruct (stop_keeps_cooldown_parts (sys d1))
    as (Hm & Hst & Hc & Hrel & Hl & Hdb & Hf).
  cbn. rewrite Hsh, <- app_assoc. rewrite Hs in *.
  split; [reflexivity|]. split; [exact Hlive|].
  split; [exact Hm|]. split; [exact Hst|]. split; [exact Hc|].
  split; [exact Hrel|]. split; [now rewrite Hdb|].
  split; [reflexivity|]. split; [exact Hf|]. split; [exact Hl|reflexivity].
Qed.

(** ** Loading the model *)

(** X17: [load_model_background] starts a loader thread only when no
    model is loaded and no load is under way, and then marks the load as
    under way; in every other state it does nothing.  Asking twice is
    asking once. *)
Theorem one_loader_at_a_time (d : Desk) :
  load_model_background (load_model_background d) = load_model_background d /\
  (model (app (sys d)) = None -> model_loading (app (sys d)) = false ->
   model_loading (app (sys (load_model_background d))) = true /\
   shown (load_model_background d) = shown d ++ [StatusLoading; StartLoader]) /\
  (is_Some (model (app (sys d))) \/ model_loading (app (sys d)) = true ->
   load_model_background d = d).
Proof.
  unfold load_model_background.
  destruct (model (app (sys d))) as [m|] eqn:Hmodel;
    destruct (model_loading (app (sys d))) eqn:Hload; cbn;
    rewrite ?Hmodel, ?Hload; cbn.
  - repeat split; intros; try discriminate; reflexivity.
  - repeat split; intros; try discriminate; reflexivity.
  - repeat split; intros; try discriminate; reflexivity.
  - split; [reflexivity|]. split.
    + intros _ _. split; [reflexivity|]. now rewrite <- app_assoc.
    + intros [[x Hx]|Hx]; discriminate.
Qed.

(** X18: how a start fares around a load, for a stopped pipeline with no
    model, no load under way and no loader callback waiting.  While the
    load is under way the start shows "Please Wait" and the pipeline
    stays stopped.  After a load that succeeded the flag is down again
    and a start with an opening camera takes the pipeline to monitoring.
    After a load that failed, the callback the thread queued raises
    [NameError], so [_model_load_failed] never runs: no error is shown,
    the flag stays up and there is still no model; every start then
    shows "Please Wait" and leaves the pipeline stopped, and
    [load_model_background] starts no new load. *)
Theorem start_follows_model_load (d : Desk) (camera_opens : bool)
    (m : Model) :
  model (app (sys d)) = None ->
  model_loading (app (sys d)) = false ->
  monitoring (app (sys d)) = false ->
  loader_queue d = [] ->
  let loading := load_model_background d in
  let ready := load_model (Some m) d in
  let failed := load_model None d in
  (host (start_monitoring camera_opens (sys loading)) =
     host (sys d) ++ [ShowMsg MsgPleaseWait] /\
   monitoring (app (start_monitoring camera_opens (sys loading))) = false) /\
  (model (app (sys ready)) = Some m /\
   model_loading (app (sys ready)) = false /\
   monitoring (app (start_monitoring true (sys ready))) = true) /\
  (fst (run_loader_callback CbModelLoadFailed
          (_load_model_thread None loading)) = Some NameError /\
   model (app (sys failed)) = None /\
   model_loading (app (sys failed)) = true /\
   shown failed = shown d ++ [StatusLoading; StartLoader] /\
   host (start_monitoring camera_opens (sys failed)) =
     host (sys d) ++ [ShowMsg MsgPleaseWait] /\
   monitoring (app (start_monitoring camera_opens (sys failed))) = false /\
   load_model_background failed = failed).
Proof.
  intros Hmodel Hload Hmon Hqueue loading ready failed.
  assert (Hloading : loading =
    show StartLoader
      (show StatusLoading (with_sys (with_app (set_model_loading true)) d))).
  { unfold loading, load_model_background. now rewrite Hmodel, Hload. }
  assert (Hq : loader_queue loading = []) by (now rewrite Hloading).
  split; [|split].
  - rewrite Hloading. unfold start_monitoring. cbn. rewrite Hmodel. cbn.
    split; [reflexivity | exact Hmon].
  - unfold ready, load_model. fold loading. unfold _load_model_thread.
    cbn [loader_queue loader_after with_sys]. rewrite Hq.
    rewrite Hloading. unfold start_monitoring. cbn. rewrite Hmon. cbn.
    repeat split.
  - unfold failed, load_model. fold loading. unfold _load_model_thread.
    cbn [loader_queue loader_after with_sys]. rewrite Hq.
    rewrite Hloading. unfold start_monitoring, load_model_background. cbn.
    rewrite Hmodel. cbn.
    split; [reflexivity|]. split; [reflexivity|]. split; [reflexivity|].
    split; [now rewrite <- app_assoc|].
    split; [reflexivity|]. split; [exact Hmon | reflexivity].
Qed.

(** X19: [get_model] hands out the model, changing nothing, once it is
    loaded; until then it raises [RuntimeError], and after it has raised
    a load is under way: it starts one exactly when none was. *)
Theorem get_model_raises_until_loaded (d : Desk) :
  (forall m, model (app (sys d)) = Some m -> get_model d = (inr m, d)) /\
  (model (app (sys d)) = None ->
   fst (get_model d) = inl RuntimeError /\
   model_loading (app (sys (snd (get_model d)))) = true /\
   (model_loading (app (sys d)) = true -> snd (get_model d) = d) /\
   (model_loading (app (sys d)) = false ->
    shown (snd (get_model d)) = shown d ++ [StatusLoading; StartLoader])).
Proof.
  unfold get_model, load_model_background. split.
  - intros m ->. reflexivity.
  - intros Hmodel. rewrite Hmodel.
    destruct (model_loading (app (sys d))) eqn:Hload; cbn.
    + repeat split; auto; discriminate.
    + repeat split; try discriminate. intros _. now rewrite <- app_assoc.
Qed.

(** ** From the capture loop to the log box *)

Lemma dispatch_queue (env : SaveEnv) (s : Sys) :
  after_queue (snd (dispatch env s)) =
  after_queue s ++
    (if String.eqb (action_mode (app s)) "Warn" then [CbShowWarning] else []).
Proof.
  unfold dispatch. run_act.
  destruct (String.eqb (action_mode (app s)) "Warn"); cbn; [reflexivity|].
  destruct (String.eqb (action_mode (app s)) "Lock"); cbn;
    [destruct (env_lock_ok env)|]; cbn; now rewrite app_nil_r.
Qed.

Section MainLoopFacts.

Variable strftime : string -> DateTime -> string.
Variable os_path_join : string -> string -> string.
Variable ALERTS_DIR : string.

Local Abbreviation img_name := (img_name strftime os_path_join ALERTS_DIR).
Local Abbreviation timestamp_str := (timestamp_str strftime).
Local Abbreviation main_loop_step :=
  (run_next strftime os_path_join ALERTS_DIR).

(** X20: from the capture loop to the log box.  When a pass reaches the
    streak and the cooldown admits it while no callback is waiting, the
    main loop first runs [save_violation] on the frame of that pass and
    then, if the image is written and insert and commit go through,
    [refresh_logs]: the committed table has gained the row, the image
    file holds the frame, and the log box starts with the new violation;
    this holds in every action mode, also when locking the workstation
    raises. *)
Theorem admitted_pass_reaches_log (hit : bool) (now : Z) (f : Frame)
    (d : Desk) (env env' : SaveEnv) (query_ok : bool) :
  observe hit (app (sys d)) = true ->
  cooldown_over now (app (sys d)) = true ->
  after_queue (sys d) = [] ->
  env_imwrite env = Written ->
  env_insert_ok env = true ->
  env_commit_ok env = true ->
  let d1 := with_sys (gates hit now f) d in
  let d2 := main_loop_step env query_ok d1 in
  let d3 := main_loop_step env' true d2 in
  let r := new_row (view (db (sys d))) (timestamp_str (env_now env))
             (employee_id env) "Mobile Phone" (img_name (env_now env)) in
  after_queue (sys d1) = [CbSaveViolation f] /\
  rows (committed (db (sys d3))) = rows (view (db (sys d))) ++ [r] /\
  files (sys d3) !! img_name (env_now env) = Some f /\
  head (log_box (sys d3)) = Some (log_line r) /\
  last_alert_time (app (sys d3)) = now /\
  detect_streak (app (sys d3)) = 0.
Proof.
  intros Hobs Hcd Hempty Hw Hi Hc d1 d2 d3 r.
  assert (Hd1 : sys d1 = _) by (apply (gates_admitted hit now f (sys d) Hobs Hcd)).
  assert (Hq1 : after_queue (sys d1) = [CbSaveViolation f]).
  { rewrite Hd1. cbn. now rewrite Hempty. }
  set (s1 := {| app := app (sys d1); files := files (sys d1);
                db := db (sys d1); after_queue := [];
                host := host (sys d1); log_box := log_box (sys d1) |}).
  assert (Hd2 : sys d2 =
    snd (save_violation strftime os_path_join ALERTS_DIR env f s1)).
  { unfold d2, run_next. rewrite Hq1. reflexivity. }
  assert (Hcv : cv2_imwrite (env_imwrite env) (img_name (env_now env)) f s1
    = (Returned tt,
       with_files (fun fs => <[img_name (env_now env) := f]> fs) s1))
    by (now rewrite Hw).
  assert (Hex : is_Some
    (files (with_files (fun fs => <[img_name (env_now env) := f]> fs) s1)
       !! img_name (env_now env))).
  { cbn. rewrite lookup_insert_eq. now eexists. }
  destruct (save_violation_recorded strftime os_path_join ALERTS_DIR
              env f s1 _ Hcv Hex Hi Hc) as (Hsv & Hdb & Hfiles).
  rewrite <- Hd2 in Hdb, Hfiles.
  assert (Happ : app (sys d2) = app (sys d1)).
  { rewrite Hd2, save_violation_keeps_app. reflexivity. }
  assert (Hq2 : exists rest, after_queue (sys d2) = CbRefreshLogs :: rest).
  { rewrite Hd2, Hsv, dispatch_queue. cbn. eauto. }
  destruct Hq2 as [rest Hq2].
  assert (Hd3 : sys d3 =
    refresh_logs true
      {| app := app (sys d2); files := files (sys d2); db := db (sys d2);
         after_queue := rest; host := host (sys d2);
         log_box := log_box (sys d2) |}).
  { unfold d3, run_next. rewrite Hq2. reflexivity. }
  assert (Hdb1 : db (sys d1) = db (sys d)) by (now rewrite Hd1).
  assert (Hl1 : last_alert_time (app (sys d1)) = now) by (now rewrite Hd1).
  assert (Hs1 : detect_streak (app (sys d1)) = 0) by (now rewrite Hd1).
  clearbody d1 d2 d3.
  split; [exact Hq1|].
  rewrite Hd3. cbn. rewrite Hdb, Hfiles, Happ. cbn.
  rewrite Hdb1. fold r.
  split; [reflexivity|]. split; [apply lookup_insert_eq|].
  split; [|split; assumption].
  unfold recent_violations. cbn.
  rewrite order_by_id_desc_snoc by apply new_row_id_fresh. reflexivity.
Qed.

End MainLoopFacts.

(** ** Concrete runs *)

Example sample_img_name :
  img_name sample_strftime sample_join "Alerts" sample_now =
  "Alerts/violation_20240309_140530.jpg".
Proof. vm_compute. reflexivity. Qed.

Example sample_timestamp_str :
  timestamp_str sample_strftime sample_now = "2024-03-09 14:05:30".
Proof. vm_compute. reflexivity. Qed.

(** Scenario A of the specification: with a streak of 3, the frames
    true, true, false, true, true, true schedule one violation, on the
    sixth frame. *)
Example scenario_a :
  let s0 := sys_of (running_app 0) in
  after_queue (update_frame [phone_frame 100; phone_frame 101;
                             empty_frame 102; phone_frame 103;
                             phone_frame 104] s0) = [] /\
  after_queue (update_frame [phone_frame 100; phone_frame 101;
                             empty_frame 102; phone_frame 103;
                             phone_frame 104; phone_frame 105] s0) =
    [CbSaveViolation []].
Proof. split; reflexivity. Qed.

(** C1 fails as stated.  With a streak of 3 and four frames in a row
    showing a phone, the third frame reaches the streak and is admitted,
    so on the fourth the counter is 1 and the streak is not reached
    although the three most recent frames all had a detection.  With six
    such frames one second apart, the sixth reaches the streak inside the
    cooldown of the third, and the counter stays at 3. *)
Lemma debounce_claim_fails :
  let s0 := sys_of (running_app 0) in
  ~ fires_iff_recent s0 [phone_frame 100; phone_frame 101; phone_frame 102]
      [] [mkResult (Some [mkBox 67])] 103 /\
  ~ fire_resets s0 [phone_frame 100; phone_frame 101; phone_frame 102;
                    phone_frame 103; phone_frame 104]
      [] [mkResult (Some [mkBox 67])] 105.
Proof.
  split.
  - intros [_ H]. vm_compute in H. specialize (H eq_refl). discriminate.
  - intros H. vm_compute in H. specialize (H eq_refl). discriminate.
Qed.

Lemma debounce_gate_fires_witness :
  let s0 := sys_of (running_app 0) in
  let rds := [phone_frame 100; phone_frame 101] in
  monitoring (app s0) = true /\
  detect_streak (app s0) = 0 /\
  1 <= required_streak (app s0) /\
  recent_all_true 3 (hits (rds ++ [phone_frame 102])) = true /\
  detect_streak (app (frame_iteration (phone_frame 102)
                        (update_frame rds s0))) = 0.
Proof.
  intros s0 rds.
  assert (Hreq : 1 <= required_streak (app s0)) by (cbn; lia).
  destruct (debounce_gate_fires s0 rds [] [mkResult (Some [mkBox 67])] 102
              eq_refl eq_refl Hreq) as (Hrecent & _ & Hreset & _).
  split; [reflexivity|]. split; [reflexivity|]. split; [exact Hreq|].
  split; [apply Hrecent; reflexivity | apply Hreset; reflexivity].
Defined.

Lemma cooldown_gate_admits_witness :
  let s := sys_of (running_app 0) in
  let s1 := snd (cooldown_gate 1700000000 [] s) in
  alert_cooldown_seconds (app s) <= 1700000000 /\
  last_alert_time (app s) = never /\
  fst (cooldown_gate 1700000000 [] s) = true /\
  last_alert_time (app s1) = 1700000000 /\
  fst (cooldown_gate 1700000005 [] s1) = false /\
  fst (cooldown_gate 1700000010 [] s1) = true.
Proof.
  intros s s1.
  assert (Hclock : alert_cooldown_seconds (app s) <= 1700000000)
    by (cbn; lia).
  destruct (cooldown_gate_admits 1700000000 [] s Hclock)
    as (Hiff & Hset & _ & Hnext).
  assert (Hadm : fst (cooldown_gate 1700000000 [] s) = true)
    by (apply Hiff; left; reflexivity).
  split; [exact Hclock|]. split; [reflexivity|].
  split; [exact Hadm|]. split; [exact (Hset Hadm)|].
  split.
  - apply (Hnext 1700000005 []); [lia | exact Hadm | cbn; lia].
  - apply (Hnext 1700000010 []); [lia | exact Hadm | cbn; lia].
Defined.

(** C6 fails as stated.  A stopped pipeline whose last alert was at 1000
    starts successfully and still has [last_alert_time] 1000, not the
    0.0 of [__init__]. *)
Lemma start_keeps_last_alert_time :
  ~ start_resets_state true (sys_of (stopped_app 1000)).
Proof.
  intros H. destruct (H eq_refl eq_refl) as [_ Hlast].
  vm_compute in Hlast. discriminate.
Qed.

Lemma start_needs_ready_detector_witness :
  let s := sys_of (stopped_app 1000) in
  monitoring (app s) = false /\
  monitoring (app (start_monitoring true s)) = true /\
  detect_streak (app (start_monitoring true s)) = 0 /\
  last_alert_time (app (start_monitoring true s)) = 1000 /\
  loops_started (start_monitoring true s) = 1%nat.
Proof.
  intros s.
  destruct (start_needs_ready_detector true s) as [Hstart _].
  destruct (Hstart eq_refl eq_refl) as (_ & _ & Hstreak & Hlast & Hloops).
  split; [reflexivity|]. split; [reflexivity|].
  split; [exact Hstreak|]. split; [exact Hlast | exact Hloops].
Defined.

Lemma stop_keeps_cooldown_witness :
  let s := sys_of (set_detect_streak 2 (running_app 1000)) in
  detect_streak (app (stop_monitoring s)) = 0 /\
  Release (mkCapture true) ∈ host (stop_monitoring s) /\
  last_alert_time (app (start_monitoring true (stop_monitoring s))) = 1000 /\
  cooldown_over 1005 (app (start_monitoring true (stop_monitoring s))) =
    false.
Proof.
  intros s.
  destruct (stop_keeps_cooldown s true 1005)
    as (_ & Hstreak & _ & Hrel & _ & Hlast & Hcd).
  split; [exact Hstreak|]. split; [apply Hrel; reflexivity|].
  split; [exact Hlast | exact Hcd].
Defined.

Lemma start_while_running_is_noop_witness :
  let s := sys_of (set_detect_streak 2 (running_app 1000)) in
  monitoring (app s) = true /\
  start_monitoring true s = s /\
  loops_started (start_monitoring true s) = loops_started s.
Proof.
  intros s.
  destruct (start_while_running_is_noop true s eq_refl)
    as (_ & _ & _ & _ & Hloops & Hsame).
  split; [reflexivity|]. split; [|exact Hloops].
  apply Hsame. now exists (YOLO "yolov8n.pt").
Defined.

Lemma rejection_keeps_streak_witness :
  let s := sys_of (set_detect_streak 2 (running_app 1000)) in
  let s1 := gates true 1005 [] s in
  let mid := [empty_frame 1006; phone_frame 1007; phone_frame 1008] in
  observe true (app s) = true /\
  cooldown_over 1005 (app s) = false /\
  no_admission mid s1 = true /\
  detect_streak (app s1) = 3 /\
  last_alert_time (app s1) = 1000 /\
  after_queue (gates true 1010 [] (update_frame mid s1)) =
    [CbSaveViolation []] /\
  last_alert_time (app (gates true 1010 [] (update_frame mid s1))) = 1010.
Proof.
  intros s s1 mid.
  destruct (rejection_keeps_streak true 1005 [] s mid true 1010 []
              eq_refl eq_refl)
    as ((Hstreak & _ & Hlast & _) & Hnext).
  split; [reflexivity|]. split; [reflexivity|]. split; [reflexivity|].
  split; [exact Hstreak|]. split; [exact Hlast|].
  assert (Hge : alert_cooldown_seconds (app s) <=
                1010 - last_alert_time (app s)) by (cbn; lia).
  destruct (Hnext eq_refl eq_refl) as [Hadm _].
  destruct (Hadm Hge) as (Hq & Hl & _).
  split; [exact Hq | exact Hl].
Defined.

Lemma no_image_no_row_witness :
  let s := sys_of (running_app 100) in
  files (snd (cv2_imwrite NotWritten sample_path [1; 2; 3] s)) !! sample_path
    = None /\
  db (snd (sample_save env_no_image [1; 2; 3] s)) = empty_conn /\
  length (rows (view (db (snd (sample_save env_no_image [1; 2; 3] s))))) =
    0%nat.
Proof.
  intros s.
  assert (Hnone :
    files (snd (cv2_imwrite NotWritten sample_path [1; 2; 3] s))
      !! sample_path = None) by reflexivity.
  destruct (no_image_no_row sample_strftime sample_join "Alerts"
              env_no_image [1; 2; 3] s Hnone) as (Hdb & _ & Hlen).
  split; [exact Hnone|]. split; [exact Hdb | exact Hlen].
Defined.

Lemma recorded_violation_visible_witness :
  let s := sys_of (running_app 100) in
  let s' := snd (sample_save env_all_fine [1; 2; 3] s) in
  let r := mkRow 1 "2024-03-09 14:05:30" "alice" "Mobile Phone"
             "Alerts/violation_20240309_140530.jpg" in
  env_imwrite env_all_fine = Written /\
  env_insert_ok env_all_fine = true /\
  env_commit_ok env_all_fine = true /\
  rows (committed (db s')) = [r] /\
  files s' !! image_path r = Some [1; 2; 3] /\
  head (log_box (refresh_logs true s')) = Some (log_line r).
Proof.
  intros s s' r.
  destruct (recorded_violation_visible sample_strftime sample_join "Alerts"
              env_all_fine [1; 2; 3] s eq_refl eq_refl eq_refl)
    as (Hrows & _ & _ & _ & _ & Hfile & _ & _ & _ & Hbox).
  split; [reflexivity|]. split; [reflexivity|]. split; [reflexivity|].
  split; [exact Hrows|]. split; [exact Hfile | exact Hbox].
Defined.

Lemma dispatch_after_commit_witness :
  let s := sys_of (set_action_mode "Lock" (running_app 100)) in
  let s0 := with_files (fun fs => <[sample_path := [1; 2; 3]]> fs) s in
  let s1 := snd (persist env_no_lock "2024-03-09 14:05:30" "Unknown"
                   "Mobile Phone" sample_path s0) in
  let r := mkRow 1 "2024-03-09 14:05:30" "Unknown" "Mobile Phone"
             "Alerts/violation_20240309_140530.jpg" in
  cv2_imwrite (env_imwrite env_no_lock) sample_path [1; 2; 3] s =
    (Returned tt, s0) /\
  is_Some (files s0 !! sample_path) /\
  persist env_no_lock "2024-03-09 14:05:30" "Unknown" "Mobile Phone"
    sample_path s0 = (Returned tt, s1) /\
  fst (sample_save env_no_lock [1; 2; 3] s) = Raised HostError /\
  r ∈ rows (committed (db (snd (sample_save env_no_lock [1; 2; 3] s)))).
Proof.
  intros s s0 s1 r.
  assert (Hex : is_Some (files s0 !! sample_path))
    by (exists [1; 2; 3]; reflexivity).
  destruct (dispatch_after_commit sample_strftime sample_join "Alerts"
              env_no_lock [1; 2; 3] s s0 s1 eq_refl Hex eq_refl)
    as (Hsv & _ & _ & _ & _ & Hin).
  split; [reflexivity|]. split; [exact Hex|]. split; [reflexivity|].
  split; [reflexivity | exact Hin].
Defined.

Lemma failed_recording_consumes_cooldown_witness :
  let s := sys_of (set_detect_streak 2 (running_app 0)) in
  let later := [phone_frame 101; phone_frame 102; phone_frame 103;
                phone_frame 104; phone_frame 109] in
  let s1 := gates true 100 [] s in
  let t' := snd (sample_save env_no_image [] s1) in
  let u := update_frame later t' in
  observe true (app s) = true /\
  cooldown_over 100 (app s) = true /\
  clocks_below (100 + alert_cooldown_seconds (app s)) [] /\
  clocks_below (100 + alert_cooldown_seconds (app s)) later /\
  rows (view (db t')) = [] /\
  after_queue u = [CbSaveViolation []] /\
  last_alert_time (app u) = 100.
Proof.
  intros s later s1 t' u.
  assert (Hc1 : clocks_below (100 + alert_cooldown_seconds (app s)) [])
    by constructor.
  assert (Hc2 : clocks_below (100 + alert_cooldown_seconds (app s)) later)
    by (repeat constructor).
  destruct (failed_recording_consumes_cooldown sample_strftime sample_join
              "Alerts" true 100 [] s env_no_image [] later
              eq_refl eq_refl Hc1 Hc2)
    as (_ & _ & _ & Hq & Hl).
  split; [reflexivity|]. split; [reflexivity|].
  split; [exact Hc1|]. split; [exact Hc2|].
  split; [reflexivity|]. split; [exact Hq | exact Hl].
Defined.

(** ** Concrete runs of the rest of the application *)

Lemma scan_finds_class_67_witness :
  let results := [mkResult None; mkResult (Some [mkBox 0; mkBox 67])] in
  scan_results results false = true /\
  scan_results [mkResult None; mkResult (Some [mkBox 0])] false = false.
Proof.
  intros results.
  destruct (scan_finds_class_67 results) as [Heq Hiff].
  split; [|reflexivity].
  rewrite Heq. apply Hiff.
  exists (mkResult (Some [mkBox 0; mkBox 67])), [mkBox 0; mkBox 67], (mkBox 67).
  split; [apply list_elem_of_further, list_elem_of_here|].
  split; [reflexivity|].
  split; [apply list_elem_of_further, list_elem_of_here | reflexivity].
Defined.

Lemma no_streak_no_violation_witness :
  let s := sys_of (running_app 0) in
  let rds := [phone_frame 100; phone_frame 101; empty_frame 102;
              phone_frame 103; phone_frame 104; empty_frame 105] in
  monitoring (app s) = true /\
  detect_streak (app s) = 0 /\
  1 <= required_streak (app s) /\
  (forall k, recent_all_true 3 (take k (hits rds)) = false) /\
  after_queue (update_frame rds s) = [].
Proof.
  intros s rds.
  assert (Hreq : 1 <= required_streak (app s)) by (cbn; lia).
  assert (Hruns : forall k, recent_all_true 3 (take k (hits rds)) = false).
  { intros k. do 7 (destruct k as [|k]; [reflexivity|]). reflexivity. }
  destruct (no_streak_no_violation s rds eq_refl eq_refl Hreq Hruns)
    as [Hq _].
  split; [reflexivity|]. split; [reflexivity|]. split; [exact Hreq|].
  split; [exact Hruns | exact Hq].
Defined.

Lemma one_violation_per_window_witness :
  let s := sys_of (set_detect_streak 2 (running_app 0)) in
  let rds := [phone_frame 100; phone_frame 101; phone_frame 102;
              phone_frame 103; phone_frame 104; phone_frame 109] in
  clocks_within 100 (100 + alert_cooldown_seconds (app s)) rds /\
  (length (after_queue (update_frame rds s)) <= 1)%nat.
Proof.
  intros s rds.
  assert (Hcl : clocks_within 100 (100 + alert_cooldown_seconds (app s)) rds).
  { unfold clocks_within, rds. repeat (constructor; [cbn; lia|]).
    constructor. }
  split; [exact Hcl|].
  exact (one_violation_per_window 100 rds s Hcl).
Defined.

Lemma capture_loop_only_schedules_witness :
  let s := sys_of (set_detect_streak 2 (running_app 0)) in
  let rds := [phone_frame 100; NoFrame; Failure; phone_frame 101] in
  db (update_frame rds s) = empty_conn /\
  files (update_frame rds s) = ∅.
Proof.
  intros s rds.
  destruct (capture_loop_only_schedules rds s) as (Hf & Hdb & _).
  split; [exact Hdb | exact Hf].
Defined.

Lemma unscheduled_pass_spends_cooldown_witness :
  let s := sys_of (set_detect_streak 2 (running_app 0)) in
  let later := [phone_frame 101; phone_frame 102; phone_frame 109] in
  let s1 := frame_iteration
              (Unscheduled [] [mkResult (Some [mkBox 67])] 100) s in
  monitoring (app s) = true /\
  observe true (app s) = true /\
  cooldown_over 100 (app s) = true /\
  clocks_below (100 + alert_cooldown_seconds (app s)) later /\
  after_queue (update_frame later s1) = [] /\
  last_alert_time (app s1) = 100 /\
  detect_streak (app s1) = 3.
Proof.
  intros s later s1.
  assert (Hcl : clocks_below (100 + alert_cooldown_seconds (app s)) later)
    by (repeat constructor).
  destruct (unscheduled_pass_spends_cooldown [] [mkResult (Some [mkBox 67])]
              100 s later eq_refl eq_refl eq_refl Hcl)
    as (_ & _ & _ & _ & Hlast & Hstreak & Hq & _).
  do 3 (split; [reflexivity|]). split; [exact Hcl|].
  split; [exact Hq|]. split; [exact Hlast | exact Hstreak].
Defined.

Lemma store_ids_ascending_witness :
  table_ok fresh_table /\
  row_id <$> rows (apply_ops sample_ops fresh_table) = [3] /\
  NoDup (row_id <$> rows (apply_ops sample_ops fresh_table)).
Proof.
  destruct (store_ids_ascending sample_ops fresh_table I) as [_ Hnodup].
  split; [exact I|]. split; [reflexivity | exact Hnodup].
Defined.

Lemma ids_never_reused_witness :
  let t := apply_ops (take 2 sample_ops) fresh_table in
  let x := mkRow 2 "2024-03-09 14:06:10" "alice" "Mobile Phone" "b.jpg" in
  table_ok t /\
  x ∈ rows t /\
  row_id x < row_id (new_row (apply_ops [OpDeleteAll] t)
                       "2024-03-09 14:09:00" "alice" "Mobile Phone" "c.jpg").
Proof.
  intros t x.
  assert (Hok : table_ok t) by (apply apply_ops_ok; exact I).
  assert (Hx : x ∈ rows t) by (apply list_elem_of_further, list_elem_of_here).
  split; [exact Hok|]. split; [exact Hx|].
  exact (ids_never_reused t [OpDeleteAll] _ _ _ _ x Hok Hx).
Defined.

Lemma log_box_shows_latest_ten_witness :
  let s := with_db (fun _ => mkConn (apply_ops (take 2 sample_ops) fresh_table)
                               None) (sys_of (running_app 0)) in
  table_ok (view (db s)) /\
  log_box (refresh_logs true s) =
    [("2024-03-09 14:06:10", "alice", "Mobile Phone");
     ("2024-03-09 14:05:30", "alice", "Mobile Phone")].
Proof.
  intros s.
  assert (Hok : table_ok (view (db s))) by (apply apply_ops_ok; exact I).
  destruct (log_box_shows_latest_ten s Hok) as (Hbox & _).
  split; [exact Hok | exact Hbox].
Defined.

Lemma clear_all_violations_effect_witness :
  let s := with_db (fun _ => mkConn (apply_ops (take 2 sample_ops) fresh_table)
                               None) (sys_of (running_app 0)) in
  let out := clear_all_violations true true true true s in
  rows (committed (db (snd out))) = [] /\
  seq (committed (db (snd out))) = 2 /\
  log_box (snd out) = [].
Proof.
  intros s out.
  destruct (clear_all_violations_effect true true true true s)
    as (_ & _ & _ & Hdone & _).
  destruct (Hdone eq_refl eq_refl eq_refl) as (_ & Hrows & Hseq & _ & Hbox).
  split; [exact Hrows|]. split; [exact Hseq | exact Hbox].
Defined.

Lemma orphan_image_when_insert_fails_witness :
  let s := sys_of (running_app 100) in
  env_imwrite env_no_insert = Written /\
  env_insert_ok env_no_insert = false /\
  fst (sample_save env_no_insert [1; 2; 3] s) = Raised Sqlite3Error /\
  files (snd (sample_save env_no_insert [1; 2; 3] s)) !! sample_path =
    Some [1; 2; 3] /\
  db (snd (sample_save env_no_insert [1; 2; 3] s)) = empty_conn.
Proof.
  intros s.
  destruct (orphan_image_when_insert_fails sample_strftime sample_join
              "Alerts" env_no_insert [1; 2; 3] s eq_refl eq_refl)
    as (Hraise & Hfile & Hdb & _).
  split; [reflexivity|]. split; [reflexivity|].
  split; [exact Hraise|]. split; [exact Hfile | exact Hdb].
Defined.

Lemma stale_image_still_recorded_witness :
  let s := with_files (fun _ => {[sample_path := [9; 9]]})
             (sys_of (running_app 100)) in
  let s' := snd (sample_save env_no_image [1; 2; 3] s) in
  env_imwrite env_no_image = NotWritten /\
  files s !! sample_path = Some [9; 9] /\
  env_insert_ok env_no_image = true /\
  env_commit_ok env_no_image = true /\
  image_path <$> rows (committed (db s')) = [sample_path] /\
  files s' !! sample_path = Some [9; 9].
Proof.
  intros s s'. unfold sample_save in s'.
  assert (Hold : files s !! sample_path = Some [9; 9]) by reflexivity.
  destruct (stale_image_still_recorded sample_strftime sample_join "Alerts"
              env_no_image [1; 2; 3] [9; 9] s eq_refl Hold eq_refl eq_refl)
    as (Hrows & _ & Hfile).
  split; [reflexivity|]. split; [exact Hold|].
  split; [reflexivity|]. split; [reflexivity|].
  split; [|exact Hfile].
  fold s' in Hrows. rewrite Hrows. reflexivity.
Defined.

Lemma pending_row_when_commit_fails_witness :
  let s := sys_of (running_app 100) in
  let out := sample_save env_no_commit [1; 2; 3] s in
  env_imwrite env_no_commit = Written /\
  env_insert_ok env_no_commit = true /\
  env_commit_ok env_no_commit = false /\
  env_imwrite env_later = Written /\
  env_insert_ok env_later = true /\
  env_commit_ok env_later = true /\
  fst out = Raised Sqlite3Error /\
  rows (committed (db (snd out))) = [] /\
  row_id <$> rows (committed (db (snd (sample_save env_later [4; 5] (snd out)))))
    = [1; 2].
Proof.
  intros s out. unfold sample_save in out. unfold sample_save.
  destruct (pending_row_when_commit_fails sample_strftime sample_join "Alerts"
              env_no_commit env_later [1; 2; 3] [4; 5] s
              eq_refl eq_refl eq_refl eq_refl eq_refl eq_refl)
    as (Hraise & Hcommitted & _ & _ & _ & Hboth).
  do 6 (split; [reflexivity|]).
  split; [exact Hraise|]. split.
  - fold out in Hcommitted. rewrite Hcommitted. reflexivity.
  - fold out in Hboth. rewrite Hboth. reflexivity.
Defined.

Lemma recorded_row_on_dashboard_witness :
  let s := sys_of (running_app 100) in
  let s' := snd (sample_save env_all_fine [1; 2; 3] s) in
  env_imwrite env_all_fine = Written /\
  env_insert_ok env_all_fine = true /\
  env_commit_ok env_all_fine = true /\
  head (dashboard_table (Some "manager") s') =
    Some (mkDashRow "2024-03-09 14:05:30" "alice" "Mobile Phone"
            "Alerts/violation_20240309_140530.jpg" true) /\
  total_violations (db s') = 1%nat.
Proof.
  intros s s'.
  destruct (recorded_row_on_dashboard sample_strftime sample_join "Alerts"
              env_all_fine [1; 2; 3] s (Some "manager")
              eq_refl eq_refl eq_refl) as (Hhead & Htotal & _).
  do 3 (split; [reflexivity|]).
  split; [exact Hhead | exact Htotal].
Defined.

Lemma sample_path_not_empty : sample_path <> "".
Proof. discriminate. Qed.

Lemma sample_photo_on_disk : is_Some (files (sys photo_desk) !! sample_path).
Proof. exists [1; 2; 3]. reflexivity. Qed.

Lemma photo_window_per_path_witness :
  let d1 := open_violation_photo true sample_path photo_desk in
  let d2 := open_violation_photo true sample_path d1 in
  sample_path <> "" /\
  is_Some (files (sys photo_desk) !! sample_path) /\
  open_photo_windows photo_desk !! sample_path = None /\
  open_photo_windows d2 !! sample_path = Some 0%nat /\
  next_window d2 = 1%nat /\
  shown d2 = [Lift 0%nat].
Proof.
  intros d1 d2.
  destruct (photo_window_per_path true sample_path photo_desk) as [_ Hopen].
  destruct (Hopen sample_path_not_empty sample_photo_on_disk eq_refl)
    as (Hw1 & _ & Hw2 & _ & Hn & Hs).
  split; [exact sample_path_not_empty|].
  split; [exact sample_photo_on_disk|]. split; [reflexivity|].
  split; [|split; [exact Hn | exact Hs]].
  fold d1 in Hw1, Hw2. fold d2 in Hw2. rewrite Hw2, Hw1.
  apply lookup_insert_eq.
Defined.

Lemma photo_window_round_trip_witness :
  let d1 := open_violation_photo true sample_path photo_desk in
  sample_path <> "" /\
  is_Some (files (sys photo_desk) !! sample_path) /\
  open_photo_windows photo_desk !! sample_path = None /\
  (next_window photo_desk ∉ live photo_desk) /\
  fst (on_window_close sample_path 0%nat d1) = None /\
  open_photo_windows (snd (on_window_close sample_path 0%nat d1)) = ∅ /\
  live (snd (on_window_close sample_path 0%nat d1)) = ∅.
Proof.
  intros d1.
  assert (Hfresh : next_window photo_desk ∉ live photo_desk)
    by apply not_elem_of_empty.
  destruct (photo_window_round_trip sample_path photo_desk
              sample_path_not_empty sample_photo_on_disk eq_refl Hfresh)
    as (Hok & Hw & Hl & _).
  split; [exact sample_path_not_empty|].
  split; [exact sample_photo_on_disk|]. split; [reflexivity|].
  split; [exact Hfresh|]. split; [exact Hok|].
  split; [exact Hw | exact Hl].
Defined.

Lemma failed_photo_window_leaks_witness :
  let d1 := open_violation_photo false sample_path photo_desk in
  sample_path <> "" /\
  is_Some (files (sys photo_desk) !! sample_path) /\
  open_photo_windows photo_desk !! sample_path = None /\
  0%nat ∈ live d1 /\
  open_photo_windows d1 = ∅ /\
  fst (on_window_close sample_path 0%nat d1) = Some KeyError /\
  0%nat ∈ live (snd (on_window_close sample_path 0%nat d1)).
Proof.
  intros d1.
  destruct (failed_photo_window_leaks sample_path photo_desk
              sample_path_not_empty sample_photo_on_disk eq_refl)
    as (Hw & Hlive & Hclose).
  split; [exact sample_path_not_empty|].
  split; [exact sample_photo_on_disk|]. split; [reflexivity|].
  split; [exact Hlive|]. split; [exact Hw|].
  change (on_window_close sample_path 0%nat d1 = (Some KeyError, d1))
    in Hclose.
  rewrite Hclose. split; [reflexivity | exact Hlive].
Defined.

Lemma exit_app_cleans_up_witness :
  let d := with_sys (fun s => with_app (fun _ => running_app 1000) s)
             (open_violation_photo true sample_path photo_desk) in
  open_photo_windows (exit_app d) = ∅ /\
  (0%nat ∉ live (exit_app d)) /\
  monitoring (app (sys (exit_app d))) = false /\
  Release (mkCapture true) ∈ host (sys (exit_app d)) /\
  last_alert_time (app (sys (exit_app d))) = 1000.
Proof.
  intros d.
  destruct (exit_app_cleans_up d)
    as (Hw & Hlive & Hmon & _ & _ & Hrel & _ & _ & _ & Hlast & _).
  split; [exact Hw|]. split; [|split; [exact Hmon|split]].
  - intros Hin. apply Hlive in Hin as [_ Hall].
    apply (Hall sample_path). reflexivity.
  - apply Hrel. reflexivity.
  - exact Hlast.
Defined.

Lemma one_loader_at_a_time_witness :
  shown (load_model_background (load_model_background init_desk)) =
    [StatusLoading; StartLoader] /\
  model_loading (app (sys (load_model_background init_desk))) = true.
Proof.
  destruct (one_loader_at_a_time init_desk) as (Hidem & Hstart & _).
  destruct (Hstart eq_refl eq_refl) as [Hload Hshown].
  split; [|exact Hload]. rewrite Hidem. exact Hshown.
Defined.

Lemma start_follows_model_load_witness :
  model (app (sys init_desk)) = None /\
  model_loading (app (sys init_desk)) = false /\
  monitoring (app (sys init_desk)) = false /\
  loader_queue init_desk = [] /\
  host (start_monitoring true (sys (load_model_background init_desk))) =
    [ShowMsg MsgPleaseWait] /\
  monitoring (app (start_monitoring true
                     (sys (load_model (Some (YOLO "yolov8n.pt")) init_desk))))
    = true /\
  model_loading (app (sys (load_model None init_desk))) = true /\
  shown (load_model None init_desk) = [StatusLoading; StartLoader] /\
  host (start_monitoring true (sys (load_model None init_desk))) =
    [ShowMsg MsgPleaseWait].
Proof.
  destruct (start_follows_model_load init_desk true (YOLO "yolov8n.pt")
              eq_refl eq_refl eq_refl eq_refl)
    as ((Hwait & _) & (_ & _ & Hrun) &
        (_ & _ & Hflag & Hshown & Hstuck & _)).
  do 4 (split; [reflexivity|]).
  split; [exact Hwait|]. split; [exact Hrun|].
  split; [exact Hflag|]. split; [exact Hshown | exact Hstuck].
Defined.

Lemma get_model_raises_until_loaded_witness :
  fst (get_model init_desk) = inl RuntimeError /\
  model_loading (app (sys (snd (get_model init_desk)))) = true /\
  get_model (load_model (Some (YOLO "yolov8n.pt")) init_desk) =
    (inr (YOLO "yolov8n.pt"),
     load_model (Some (YOLO "yolov8n.pt")) init_desk).
Proof.
  destruct (get_model_raises_until_loaded init_desk) as [_ Hnone].
  destruct (Hnone eq_refl) as (Hraise & Hload & _).
  destruct (get_model_raises_until_loaded
              (load_model (Some (YOLO "yolov8n.pt")) init_desk))
    as [Hsome _].
  split; [exact Hraise|]. split; [exact Hload|].
  apply Hsome. reflexivity.
Defined.

Lemma admitted_pass_reaches_log_witness :
  let d := with_sys (fun _ => sys_of (set_action_mode "Lock"
                                        (set_detect_streak 2 (running_app 0))))
             init_desk in
  let d1 := with_sys (gates true 100 [7; 7]) d in
  let d3 := run_next sample_strftime sample_join "Alerts" env_no_lock true
              (run_next sample_strftime sample_join "Alerts" env_no_lock true
                 d1) in
  observe true (app (sys d)) = true /\
  cooldown_over 100 (app (sys d)) = true /\
  after_queue (sys d) = [] /\
  env_imwrite env_no_lock = Written /\
  env_insert_ok env_no_lock = true /\
  env_commit_ok env_no_lock = true /\
  head (log_box (sys d3)) =
    Some ("2024-03-09 14:05:30", "Unknown", "Mobile Phone") /\
  files (sys d3) !! sample_path = Some [7; 7] /\
  last_alert_time (app (sys d3)) = 100.
Proof.
  intros d d1 d3.
  destruct (admitted_pass_reaches_log sample_strftime sample_join "Alerts"
              true 100 [7; 7] d env_no_lock env_no_lock true
              eq_refl eq_refl eq_refl eq_refl eq_refl eq_refl)
    as (_ & _ & Hfile & Hhead & Hlast & _).
  do 6 (split; [reflexivity|]).
  split; [exact Hhead|]. split; [exact Hfile | exact Hlast].
Defined.
